(** * aws-ssm: retrieval of one secret from AWS Secrets Manager

    A shallow embedding of the Go program of hypolas/aws-ssm-light and the
    properties its specification states about it.

    The sources hold three generations of the program, all embedded:
    - the structured program ([ParseArgs], [GetSecret], [FormatOutput],
      [NewApp], [ShowVersion], [ShowUsage], [main]) with the [--version] and
      [--help] flags, the one the README documents and main_test.go tests;
    - its predecessor without the flags, in [Module Unflagged]: another
      [ParseArgs] and [main] around the same [GetSecret], [FormatOutput] and
      [NewApp];
    - the single-function program of src/main.go, in [Module Monolith].

    Go strings are byte sequences, so they are [string] (lists of [ascii])
    here.  What the program does to the outside is kept in a [World]:
    the two output streams and the trace of calls into the AWS SDK. *)

From Stdlib Require Import ZArith List Ascii String Bool Lia.
From stdpp Require Import base strings gmap list.
Import ListNotations.
Local Open Scope string_scope.
Local Open Scope Z_scope.

(** ** Go runtime *)

(** The line feed of Go's [\n]. *)
Definition nl : string := String "010"%char EmptyString.

(** Values of Go's [error] interface that the program builds or receives:
    [errors.New]/[fmt.Errorf] without [%w] give an [errorString], [fmt.Errorf]
    with [%w] gives a [wrapError] holding the formatted message and the
    cause. *)
Inductive error : Type :=
| errorString (s : string)
| wrapError (msg : string) (err : error).

(** [err.Error()] *)
Definition Error (e : error) : string :=
  match e with
  | errorString s => s
  | wrapError msg _ => msg
  end.

(** [errors.Unwrap(err)] *)
Definition Unwrap (e : error) : option error :=
  match e with
  | errorString _ => None
  | wrapError _ err => Some err
  end.

(** [fmt.Errorf(prefix + "%w", err)] *)
Definition fmt_Errorf_w (prefix : string) (err : error) : error :=
  wrapError (prefix +:+ Error err) err.

(** ** The AWS SDK, as far as the program touches it *)

(** [secretsmanager.GetSecretValueInput]; [SecretId] is a [*string]. *)
Record GetSecretValueInput : Type := mkInput { SecretId : option string }.

(** [secretsmanager.GetSecretValueOutput]; both payload fields are pointers,
    a binary secret has no [SecretString]. *)
Record GetSecretValueOutput : Type := mkOutput {
  SecretString : option string;
  SecretBinary : option (list ascii)
}.

(** The interface [SecretsManagerClient]: one method, which returns Go's pair
    of a [*GetSecretValueOutput] and an [error], each possibly nil. *)
Record SecretsManagerClient : Type := mkClient {
  GetSecretValue :
    GetSecretValueInput -> option GetSecretValueOutput * option error
}.

(** [aws.Config], reduced to the region it was loaded for. *)
Record aws_Config : Type := mkAwsConfig { cfg_Region : string }.

(** ** Processes *)

(** A call that leaves the process for the SDK. *)
Inductive Event : Type :=
| EvLoadDefaultConfig (region : string)
| EvGetSecretValue (input : GetSecretValueInput).

Record World : Type := mkWorld {
  Stdout : string;
  Stderr : string;
  Trace : list Event
}.

Definition initial : World := mkWorld "" "" [].

(** How a piece of Go code ends: it returns a value, the process is ended by
    [os.Exit], or a run-time panic unwinds it. *)
Inductive Outcome (A : Type) : Type :=
| Done (a : A)
| Exit (code : Z)
| Panic (msg : string).
Arguments Done {A} a.
Arguments Exit {A} code.
Arguments Panic {A} msg.

Definition Proc (A : Type) : Type := World -> Outcome A * World.

Definition ret {A} (a : A) : Proc A := fun w => (Done a, w).

Definition bind {A B} (p : Proc A) (k : A -> Proc B) : Proc B :=
  fun w =>
    match p w with
    | (Done a, w') => k a w'
    | (Exit c, w') => (Exit c, w')
    | (Panic m, w') => (Panic m, w')
    end.

Declare Scope proc_scope.
Delimit Scope proc_scope with proc.
Notation "'do' x <- p ; k" := (bind p (fun x => k))
  (at level 10, x pattern, p at level 100, k at level 200) : proc_scope.
Notation "p ;; k" := (bind p (fun _ => k))
  (at level 100, k at level 200, right associativity) : proc_scope.
Local Open Scope proc_scope.

(** [os.Exit(code)] never returns. *)
Definition os_Exit {A} (code : Z) : Proc A := fun w => (Exit code, w).

Definition panic {A} (msg : string) : Proc A := fun w => (Panic msg, w).

(** [fmt.Print]/[fmt.Printf] write to standard output, [fmt.Fprintf(os.Stderr,
    ...)] to standard error; the argument is the formatted text. *)
Definition fmt_Print (s : string) : Proc unit :=
  fun w => (Done tt, mkWorld (Stdout w +:+ s) (Stderr w) (Trace w)).

Definition fmt_Fprintf_Stderr (s : string) : Proc unit :=
  fun w => (Done tt, mkWorld (Stdout w) (Stderr w +:+ s) (Trace w)).

Definition emit (e : Event) : Proc unit :=
  fun w => (Done tt, mkWorld (Stdout w) (Stderr w) (Trace w ++ [e])).

(** [a[i]] on a slice: a run-time panic when [i] is out of range. *)
Definition index (a : list string) (i : nat) : Proc string :=
  match a !! i with
  | Some s => ret s
  | None => panic "runtime error: index out of range"
  end.

(** The exit status the operating system sees: 0 when [main] returns, the
    argument of [os.Exit], 2 after an unrecovered panic. *)
Definition exit_status {A} (o : Outcome A) : Z :=
  match o with
  | Done _ => 0
  | Exit c => c
  | Panic _ => 2
  end.

(** Does [s] end in a line feed? *)
Fixpoint ends_nl (s : string) : bool :=
  match s with
  | EmptyString => false
  | String c EmptyString => Ascii.eqb c "010"
  | String _ s' => ends_nl s'
  end.

(** [strings.ReplaceAll(s, old, new)] where [old] and [new] are one byte
    each, as in the program's only use of it: every occurrence is one byte and
    is replaced in place. *)
Fixpoint ReplaceAll_byte (s : string) (old new : ascii) : string :=
  match s with
  | EmptyString => EmptyString
  | String c s' =>
      String (if Ascii.eqb c old then new else c) (ReplaceAll_byte s' old new)
  end.

(** The tokens [ParseArgs] treats as flags. *)
Definition is_version_flag (a : string) : bool :=
  String.eqb a "--version" || String.eqb a "-v".

Definition is_help_flag (a : string) : bool :=
  String.eqb a "--help" || String.eqb a "-h".

(** ** What the build and the host supply *)

(** The package variables set with [-ldflags -X]. *)
Class Build : Type := mkBuild {
  Version : string;
  GitCommit : string;
  BuildTime : string;
  Maintainer : string
}.

(** The values the source gives them when the linker sets none. *)
Definition default_Build : Build :=
  mkBuild "dev" "unknown" "unknown" "Nicolas HYPOLITE".

(** Everything the program reads from outside itself. *)
Class Host : Type := mkHost {
  (** the process environment *)
  environ : gmap string string;
  (** the date and time the standard logger puts before a message *)
  log_stamp : string;
  (** [json.Unmarshal(data, &v)] with [v] an [interface{}]: the error it
      returns, [None] for a valid document; the decoded value is never read *)
  json_Unmarshal : string -> option error;
  (** [config.LoadDefaultConfig(ctx, config.WithRegion(region))] *)
  config_LoadDefaultConfig : string -> aws_Config + error;
  (** [secretsmanager.NewFromConfig] *)
  secretsmanager_NewFromConfig : aws_Config -> SecretsManagerClient
}.

(** [Config] holds the application configuration. *)
Record Config : Type := mkConfig {
  SecretID : string;
  Region : string
}.

(** Go's [Config{}] *)
Definition Config_zero : Config := mkConfig "" "".

(** [App] holds the application dependencies. *)
Record App : Type := mkApp {
  Client : SecretsManagerClient;
  AppConfig : Config
}.

Definition region_required : string :=
  "AWS region must be specified either via AWS_REGION environment variable or as second argument".

Definition nil_dereference : string :=
  "runtime error: invalid memory address or nil pointer dereference".

Section Program.

Context {build : Build} {host : Host}.

(** [os.Getenv]: the empty string for a variable that is not set. *)
Definition os_Getenv (key : string) : string :=
  default "" (environ !! key).

(** [log.Fatal]/[log.Fatalf]: the message on standard error after the
    logger's stamp, a line feed added unless the message ends in one, then
    [os.Exit(1)]. *)
Definition log_Fatal {A} (msg : string) : Proc A :=
  fmt_Fprintf_Stderr
    (log_stamp +:+ msg +:+ (if ends_nl msg then "" else nl));;
  os_Exit 1.

(** *** The structured program *)

Definition ShowVersion : Proc unit :=
  fmt_Print ("aws-ssm version " +:+ Version +:+ nl);;
  (if negb (String.eqb GitCommit "unknown")
   then fmt_Print ("Git commit: " +:+ GitCommit +:+ nl)
   else ret tt);;
  (if negb (String.eqb BuildTime "unknown")
   then fmt_Print ("Built: " +:+ BuildTime +:+ nl)
   else ret tt);;
  (if negb (String.eqb Maintainer "")
   then
     let maintainerName := ReplaceAll_byte Maintainer "_" " " in
     fmt_Print ("Maintainer: " +:+ maintainerName +:+ nl)
   else ret tt).

Definition ShowUsage (progName : string) : Proc unit :=
  fmt_Fprintf_Stderr ("Usage: " +:+ progName +:+ " <secret-id> [region]" +:+ nl);;
  fmt_Fprintf_Stderr ("       " +:+ progName +:+ " --version" +:+ nl);;
  fmt_Fprintf_Stderr ("       " +:+ progName +:+ " --help" +:+ nl);;
  fmt_Fprintf_Stderr (nl +:+ "Arguments:" +:+ nl);;
  fmt_Fprintf_Stderr ("  secret-id    AWS Secrets Manager secret ID or ARN" +:+ nl);;
  fmt_Fprintf_Stderr ("  region       AWS region (optional, overrides AWS_REGION)" +:+ nl);;
  fmt_Fprintf_Stderr (nl +:+ "Options:" +:+ nl);;
  fmt_Fprintf_Stderr ("  --version    Show version information" +:+ nl);;
  fmt_Fprintf_Stderr ("  --help       Show this help message" +:+ nl);;
  fmt_Fprintf_Stderr (nl +:+ "Environment variables:" +:+ nl);;
  fmt_Fprintf_Stderr ("  AWS_REGION: AWS region (can be overridden by second argument)" +:+ nl);;
  fmt_Fprintf_Stderr ("  AWS_ACCESS_KEY_ID: AWS access key" +:+ nl);;
  fmt_Fprintf_Stderr ("  AWS_SECRET_ACCESS_KEY: AWS secret key" +:+ nl);;
  fmt_Fprintf_Stderr ("  AWS_SESSION_TOKEN: Session token (for temporary roles)" +:+ nl).

Definition ParseArgs (args : list string) : Proc (Config * option error) :=
  if (length args <? 2)%nat then
    ret (Config_zero, Some (errorString "insufficient arguments"))
  else
    (* Handle version flag *)
    do a1 <- index args 1;
    (if is_version_flag a1 then ShowVersion;; os_Exit 0 else ret tt);;
    (* Handle help flag *)
    do a1 <- index args 1;
    (if is_help_flag a1
     then (do a0 <- index args 0; ShowUsage a0);; os_Exit 0
     else ret tt);;
    do secretID <- index args 1;
    let region := os_Getenv "AWS_REGION" in
    (* Override region if provided as argument *)
    do region <- (if (2 <? length args)%nat then index args 2 else ret region);
    if String.eqb region "" then
      ret (Config_zero, Some (errorString region_required))
    else
      ret (mkConfig secretID region, None).

Definition GetSecret (app : App) : Proc (string * option error) :=
  let input := mkInput (Some (SecretID (AppConfig app))) in
  emit (EvGetSecretValue input);;
  let '(result, err) := GetSecretValue (Client app) input in
  match err with
  | Some e => ret ("", Some (fmt_Errorf_w "failed to get secret value: " e))
  | None =>
      match result with
      | None =>
          panic nil_dereference
      | Some r =>
          match SecretString r with
          | None =>
              ret ("", Some (errorString "secret does not contain a string value"))
          | Some s => ret (s, None)
          end
      end
  end.

Definition FormatOutput (secretValue : string) : string :=
  (* Try to parse as JSON first, if it fails, output as is *)
  match json_Unmarshal secretValue with
  | Some _ =>
      (* Not JSON, output the string directly *)
      secretValue
  | None =>
      (* Is JSON, output the raw JSON string (like AWS CLI does) *)
      secretValue
  end.

Definition NewApp (cfg : Config) : Proc (option App * option error) :=
  emit (EvLoadDefaultConfig (Region cfg));;
  match config_LoadDefaultConfig (Region cfg) with
  | inr err => ret (None, Some (fmt_Errorf_w "failed to load AWS config: " err))
  | inl awsCfg =>
      let client := secretsmanager_NewFromConfig awsCfg in
      ret (Some (mkApp client cfg), None)
  end.

Definition main (os_Args : list string) : Proc unit :=
  do (cfg, err) <- ParseArgs os_Args;
  match err with
  | Some e =>
      (if String.eqb (Error e) "insufficient arguments"
       then do a0 <- index os_Args 0; ShowUsage a0
       else fmt_Fprintf_Stderr ("Error: " +:+ Error e +:+ nl));;
      os_Exit 1
  | None =>
      do (app, err) <- NewApp cfg;
      match err with
      | Some e => log_Fatal ("Failed to initialize application: " +:+ Error e)
      | None =>
          match app with
          | None =>
              panic nil_dereference
          | Some app =>
              do (secretValue, err) <- GetSecret app;
              match err with
              | Some e => log_Fatal ("Failed to get secret: " +:+ Error e)
              | None =>
                  let output := FormatOutput secretValue in
                  fmt_Print output
              end
          end
      end
  end.

End Program.

(** ** The structured program before it had flags *)

Module Unflagged.
Section Main.

Context {host : Host}.

Definition ParseArgs (args : list string) : Proc (Config * option error) :=
  if (length args <? 2)%nat then
    do a0 <- index args 0;
    ret (Config_zero,
         Some (errorString ("usage: " +:+ a0 +:+ " <secret-id> [region]")))
  else
    do secretID <- index args 1;
    let region := os_Getenv "AWS_REGION" in
    (* Override region if provided as argument *)
    do region <- (if (2 <? length args)%nat then index args 2 else ret region);
    if String.eqb region "" then
      ret (Config_zero, Some (errorString region_required))
    else
      ret (mkConfig secretID region, None).

Definition main (os_Args : list string) : Proc unit :=
  do (cfg, err) <- ParseArgs os_Args;
  match err with
  | Some e =>
      fmt_Fprintf_Stderr ("Error: " +:+ Error e +:+ nl);;
      fmt_Fprintf_Stderr ("Environment variables:" +:+ nl);;
      fmt_Fprintf_Stderr ("  AWS_REGION: AWS region (can be overridden by second argument)" +:+ nl);;
      fmt_Fprintf_Stderr ("  AWS_ACCESS_KEY_ID: AWS access key" +:+ nl);;
      fmt_Fprintf_Stderr ("  AWS_SECRET_ACCESS_KEY: AWS secret key" +:+ nl);;
      os_Exit 1
  | None =>
      do (app, err) <- NewApp cfg;
      match err with
      | Some e => log_Fatal ("Failed to initialize application: " +:+ Error e)
      | None =>
          match app with
          | None => panic nil_dereference
          | Some app =>
              do (secretValue, err) <- GetSecret app;
              match err with
              | Some e => log_Fatal ("Failed to get secret: " +:+ Error e)
              | None =>
                  let output := FormatOutput secretValue in
                  fmt_Print output
              end
          end
      end
  end.

End Main.
End Unflagged.

(** ** The single-function program of src/main.go *)

Module Monolith.
Section Main.

Context {host : Host}.

Definition main (os_Args : list string) : Proc unit :=
  (if (length os_Args <? 2)%nat then
     do a0 <- index os_Args 0;
     fmt_Fprintf_Stderr ("Usage: " +:+ a0 +:+ " <secret-id> [region]" +:+ nl);;
     fmt_Fprintf_Stderr ("Environment variables:" +:+ nl);;
     fmt_Fprintf_Stderr ("  AWS_REGION: AWS region (can be overridden by second argument)" +:+ nl);;
     fmt_Fprintf_Stderr ("  AWS_ACCESS_KEY_ID: AWS access key" +:+ nl);;
     fmt_Fprintf_Stderr ("  AWS_SECRET_ACCESS_KEY: AWS secret key" +:+ nl);;
     os_Exit 1
   else ret tt);;
  do secretID <- index os_Args 1;
  let region := os_Getenv "AWS_REGION" in
  (* Override region if provided as argument *)
  do region <- (if (2 <? length os_Args)%nat then index os_Args 2 else ret region);
  (if String.eqb region "" then log_Fatal region_required else ret tt);;
  (* Load AWS configuration *)
  emit (EvLoadDefaultConfig region);;
  match config_LoadDefaultConfig region with
  | inr err => log_Fatal ("Failed to load AWS config: " +:+ Error err)
  | inl cfg =>
      (* Create Secrets Manager client *)
      let client := secretsmanager_NewFromConfig cfg in
      (* Get secret value *)
      let input := mkInput (Some secretID) in
      emit (EvGetSecretValue input);;
      let '(result, err) := GetSecretValue client input in
      match err with
      | Some e => log_Fatal ("Failed to get secret value: " +:+ Error e)
      | None =>
          match result with
          | None => panic nil_dereference
          | Some r =>
              match SecretString r with
              | None => log_Fatal "Secret does not contain a string value"
              | Some s =>
                  (* Try to parse as JSON first, if it fails, output as is *)
                  match json_Unmarshal s with
                  | Some _ => fmt_Print s
                  | None => fmt_Print s
                  end
              end
          end
      end
  end.

End Main.
End Monolith.

(** ** A decoder to run the program with

    The syntax check with which [json.Unmarshal] starts: the byte-at-a-time
    scanner of encoding/json, with its stack of open objects and arrays and
    its nesting limit.  The theorems below hold for every decoder; this one
    serves to run the program on concrete secrets.  (The library's decoder
    rejects, beyond bad syntax, numbers that do not fit a float64, which
    this check does not look at.) *)

Module json.

Inductive parseState : Type :=
| parseObjectKey | parseObjectValue | parseArrayValue.

Inductive step : Type :=
| stateBeginValueOrEmpty | stateBeginValue
| stateBeginStringOrEmpty | stateBeginString
| stateEndValue | stateEndTop
| stateInString | stateInStringEsc
| stateInStringEscU | stateInStringEscU1
| stateInStringEscU12 | stateInStringEscU123
| stateNeg | state1 | state0 | stateDot | stateDot0
| stateE | stateESign | stateE0
| stateT | stateTr | stateTru
| stateF | stateFa | stateFal | stateFals
| stateN | stateNu | stateNul.

(** The scanner: its step function and the stack, innermost first. *)
Definition scanner : Type := step * list parseState.

Definition maxNestingDepth : Z := 10000.

Definition isSpace (c : ascii) : bool :=
  match c with
  | " " | "009" | "013" | "010" => true
  | _ => false
  end%char.

Definition between (lo hi c : ascii) : bool :=
  (N_of_ascii lo <=? N_of_ascii c)%N && (N_of_ascii c <=? N_of_ascii hi)%N.

Definition isDigit (c : ascii) : bool := between "0" "9" c.

Definition isHex (c : ascii) : bool :=
  between "0" "9" c || between "a" "f" c || between "A" "F" c.

Definition expect (want c : ascii) (next : scanner) : option scanner :=
  if Ascii.eqb c want then Some next else None.

Definition popParseState (ps : list parseState) : scanner :=
  match ps with
  | [] => (stateEndTop, [])
  | _ :: _ => (stateEndValue, ps)
  end.

Definition pushParseState (s : step) (ps : list parseState) (new : parseState)
  : option scanner :=
  if Z.of_nat (length (new :: ps)) <=? maxNestingDepth
  then Some (s, new :: ps) else None.

Definition endValue (ps : list parseState) (c : ascii) : option scanner :=
  match ps with
  | [] => if isSpace c then Some (stateEndTop, []) else None
  | top :: rest =>
      if isSpace c then Some (stateEndValue, ps) else
      match top with
      | parseObjectKey =>
          expect ":" c (stateBeginValue, parseObjectValue :: rest)
      | parseObjectValue =>
          if Ascii.eqb c "," then Some (stateBeginString, parseObjectKey :: rest)
          else expect "}" c (popParseState rest)
      | parseArrayValue =>
          if Ascii.eqb c "," then Some (stateBeginValue, ps)
          else expect "]" c (popParseState rest)
      end
  end.

Definition beginString (ps : list parseState) (c : ascii) : option scanner :=
  if isSpace c then Some (stateBeginString, ps)
  else expect "034" c (stateInString, ps).

Definition beginValue (ps : list parseState) (c : ascii) : option scanner :=
  if isSpace c then Some (stateBeginValue, ps) else
  match c with
  | "{" => pushParseState stateBeginStringOrEmpty ps parseObjectKey
  | "[" => pushParseState stateBeginValueOrEmpty ps parseArrayValue
  | "034" => Some (stateInString, ps)
  | "-" => Some (stateNeg, ps)
  | "0" => Some (state0, ps)
  | "t" => Some (stateT, ps)
  | "f" => Some (stateF, ps)
  | "n" => Some (stateN, ps)
  | _ => if between "1" "9" c then Some (state1, ps) else None
  end%char.

Definition number0 (ps : list parseState) (c : ascii) : option scanner :=
  if Ascii.eqb c "." then Some (stateDot, ps)
  else if Ascii.eqb c "e" || Ascii.eqb c "E" then Some (stateE, ps)
  else endValue ps c.

Definition exponentSign (ps : list parseState) (c : ascii) : option scanner :=
  if isDigit c then Some (stateE0, ps) else None.

Definition next (sc : scanner) (c : ascii) : option scanner :=
  let '(s, ps) := sc in
  match s with
  | stateBeginValueOrEmpty =>
      if isSpace c then Some (stateBeginValueOrEmpty, ps)
      else if Ascii.eqb c "]" then endValue ps c
      else beginValue ps c
  | stateBeginValue => beginValue ps c
  | stateBeginStringOrEmpty =>
      if isSpace c then Some (stateBeginStringOrEmpty, ps)
      else if Ascii.eqb c "}" then
        match ps with
        | [] => None
        | _ :: rest => endValue (parseObjectValue :: rest) c
        end
      else beginString ps c
  | stateBeginString => beginString ps c
  | stateEndValue => endValue ps c
  | stateEndTop => if isSpace c then Some (stateEndTop, ps) else None
  | stateInString =>
      if Ascii.eqb c "034" then Some (stateEndValue, ps)
      else if Ascii.eqb c "\" then Some (stateInStringEsc, ps)
      else if (N_of_ascii c <? 32)%N then None
      else Some (stateInString, ps)
  | stateInStringEsc =>
      match c with
      | "b" | "f" | "n" | "r" | "t" | "\" | "/" | "034" => Some (stateInString, ps)
      | "u" => Some (stateInStringEscU, ps)
      | _ => None
      end%char
  | stateInStringEscU => if isHex c then Some (stateInStringEscU1, ps) else None
  | stateInStringEscU1 => if isHex c then Some (stateInStringEscU12, ps) else None
  | stateInStringEscU12 => if isHex c then Some (stateInStringEscU123, ps) else None
  | stateInStringEscU123 => if isHex c then Some (stateInString, ps) else None
  | stateNeg =>
      if Ascii.eqb c "0" then Some (state0, ps)
      else if between "1" "9" c then Some (state1, ps)
      else None
  | state1 => if isDigit c then Some (state1, ps) else number0 ps c
  | state0 => number0 ps c
  | stateDot => if isDigit c then Some (stateDot0, ps) else None
  | stateDot0 =>
      if isDigit c then Some (stateDot0, ps)
      else if Ascii.eqb c "e" || Ascii.eqb c "E" then Some (stateE, ps)
      else endValue ps c
  | stateE =>
      if Ascii.eqb c "+" || Ascii.eqb c "-" then Some (stateESign, ps)
      else exponentSign ps c
  | stateESign => exponentSign ps c
  | stateE0 => if isDigit c then Some (stateE0, ps) else endValue ps c
  | stateT => expect "r" c (stateTr, ps)
  | stateTr => expect "u" c (stateTru, ps)
  | stateTru => expect "e" c (stateEndValue, ps)
  | stateF => expect "a" c (stateFa, ps)
  | stateFa => expect "l" c (stateFal, ps)
  | stateFal => expect "s" c (stateFals, ps)
  | stateFals => expect "e" c (stateEndValue, ps)
  | stateN => expect "u" c (stateNu, ps)
  | stateNu => expect "l" c (stateNul, ps)
  | stateNul => expect "l" c (stateEndValue, ps)
  end.

Definition endTop (sc : scanner) : bool :=
  match sc with
  | (stateEndTop, _) => true
  | _ => false
  end.

(** At the end of the input the scanner is fed one space, which ends a
    number that was still open. *)
Definition eof (sc : scanner) : bool :=
  endTop sc ||
  match next sc " " with
  | Some sc' => endTop sc'
  | None => false
  end.

Fixpoint scan (sc : scanner) (data : string) : bool :=
  match data with
  | EmptyString => eof sc
  | String c data' =>
      match next sc c with
      | Some sc' => scan sc' data'
      | None => false
      end
  end.

Definition checkValid (data : string) : bool := scan (stateBeginValue, []) data.

Definition syntax_decoder (data : string) : option error :=
  if checkValid data then None else Some (errorString "invalid JSON").

End json.

(** ** Test doubles and sample hosts *)

(** Go source writes a string with double quotes inside between back quotes;
    here such a string is written with single quotes in their place: [dq]
    puts the double quotes back. *)
Definition dq (s : string) : string := ReplaceAll_byte s "'" "034".


(** The double of the tests: whatever the request, it returns the canned
    response and error. *)
Definition double (resp : option GetSecretValueOutput) (err : option error)
  : SecretsManagerClient :=
  mkClient (fun _ => (resp, err)).

(** [aws.String(s)] in a response. *)
Definition string_secret (s : string) : option GetSecretValueOutput :=
  Some (mkOutput (Some s) None).

(** A host whose SDK hands out [client] for every region. *)
Definition host_with (env : gmap string string) (client : SecretsManagerClient)
  : Host :=
  mkHost env "2025/01/01 00:00:00 " json.syntax_decoder
         (fun region => inl (mkAwsConfig region)) (fun _ => client).

Definition env_us : gmap string string := {[ "AWS_REGION" := "us-east-1" ]}.

(** A double that answers every request with the string [V]. *)
Definition answering (V : string) : SecretsManagerClient :=
  double (string_secret V) None.

(** The build with no linker flags. *)
Definition dev : Build := default_Build.

(** A host of [AWS_REGION=us-east-1] where no SDK configuration loads. *)
Definition host_no_credentials : Host :=
  mkHost env_us "2025/01/01 00:00:00 " json.syntax_decoder
         (fun _ => inr (errorString "no credentials")) (fun _ => answering "").

(** A host of [AWS_REGION=us-east-1] whose client times out. *)
Definition host_timeout : Host :=
  host_with env_us (double None (Some (errorString "context deadline exceeded"))).

(** A host of [AWS_REGION=us-east-1] whose secrets are binary. *)
Definition host_binary : Host :=
  host_with env_us (double (Some (mkOutput None (Some ["b"%char]))) None).

(** The two hosts of the tests: [AWS_REGION] set, and no environment. *)
Definition host_us : Host := host_with env_us (answering "my-secret-value").
Definition host_bare : Host := host_with ∅ (answering "my-secret-value").

(** ** The texts the program prints *)

(** What [ShowVersion] puts on standard output. *)
Definition version_text {build : Build} : string :=
  "aws-ssm version " +:+ Version +:+ nl +:+
  (if String.eqb GitCommit "unknown" then ""
   else "Git commit: " +:+ GitCommit +:+ nl) +:+
  (if String.eqb BuildTime "unknown" then ""
   else "Built: " +:+ BuildTime +:+ nl) +:+
  (if String.eqb Maintainer "" then ""
   else "Maintainer: " +:+ ReplaceAll_byte Maintainer "_" " " +:+ nl).

(** What [ShowUsage] puts on standard error. *)
Definition usage_text (progName : string) : string :=
  "Usage: " +:+ progName +:+ " <secret-id> [region]" +:+ nl +:+
  "       " +:+ progName +:+ " --version" +:+ nl +:+
  "       " +:+ progName +:+ " --help" +:+ nl +:+
  nl +:+ "Arguments:" +:+ nl +:+
  "  secret-id    AWS Secrets Manager secret ID or ARN" +:+ nl +:+
  "  region       AWS region (optional, overrides AWS_REGION)" +:+ nl +:+
  nl +:+ "Options:" +:+ nl +:+
  "  --version    Show version information" +:+ nl +:+
  "  --help       Show this help message" +:+ nl +:+
  nl +:+ "Environment variables:" +:+ nl +:+
  "  AWS_REGION: AWS region (can be overridden by second argument)" +:+ nl +:+
  "  AWS_ACCESS_KEY_ID: AWS access key" +:+ nl +:+
  "  AWS_SECRET_ACCESS_KEY: AWS secret key" +:+ nl +:+
  "  AWS_SESSION_TOKEN: Session token (for temporary roles)" +:+ nl.

(** Is the first positional token one of the informational flags? *)
Definition informational (args : list string) : bool :=
  match args !! 1%nat with
  | Some a => is_version_flag a || is_help_flag a
  | None => false
  end.

(** The region [ParseArgs] settles on: the third token when there is one,
    the environment otherwise. *)
Definition resolved_region {host : Host} (rest : list string) : string :=
  match rest with
  | [] => os_Getenv "AWS_REGION"
  | region :: _ => region
  end.

(** The line the standard logger writes for [msg]. *)
Definition log_line {host : Host} (msg : string) : string :=
  log_stamp +:+ msg +:+ (if ends_nl msg then "" else nl).

(** The world after one more SDK call. *)
Definition called (e : Event) (w : World) : World :=
  mkWorld (Stdout w) (Stderr w) (Trace w ++ [e]).

(** The world after [log.Fatal] wrote [msg]. *)
Definition logged {host : Host} (msg : string) (w : World) : World :=
  mkWorld (Stdout w) (Stderr w +:+ log_line msg) (Trace w).

(** The request [GetSecret] sends for a configuration. *)
Definition request_of (cfg : Config) : GetSecretValueInput :=
  mkInput (Some (SecretID cfg)).

(** A response from which no string can be taken: an error, no output at
    all, or an output without [SecretString]. *)
Definition no_payload (resp : option GetSecretValueOutput * option error) : bool :=
  match resp with
  | (_, Some _) => true
  | (None, None) => true
  | (Some r, None) =>
      match SecretString r with
      | None => true
      | Some _ => false
      end
  end.

(** What the program of src/main.go puts on standard error when the secret
    id is missing. *)
Definition short_usage_text (progName : string) : string :=
  "Usage: " +:+ progName +:+ " <secret-id> [region]" +:+ nl +:+
  "Environment variables:" +:+ nl +:+
  "  AWS_REGION: AWS region (can be overridden by second argument)" +:+ nl +:+
  "  AWS_ACCESS_KEY_ID: AWS access key" +:+ nl +:+
  "  AWS_SECRET_ACCESS_KEY: AWS secret key" +:+ nl.

(** The five ways [ParseArgs] can go on [args] from the world [w]. *)
Inductive ParseArgs_case {build : Build} {host : Host}
          (args : list string) (w : World)
  : Outcome (Config * option error) * World -> Prop :=
| parse_insufficient :
    (length args < 2)%nat ->
    ParseArgs_case args w
      (Done (Config_zero, Some (errorString "insufficient arguments")), w)
| parse_version prog flag rest :
    args = prog :: flag :: rest ->
    is_version_flag flag = true ->
    ParseArgs_case args w
      (Exit 0, mkWorld (Stdout w +:+ version_text) (Stderr w) (Trace w))
| parse_help prog flag rest :
    args = prog :: flag :: rest ->
    is_version_flag flag = false ->
    is_help_flag flag = true ->
    ParseArgs_case args w
      (Exit 0, mkWorld (Stdout w) (Stderr w +:+ usage_text prog) (Trace w))
| parse_no_region prog secretId rest :
    args = prog :: secretId :: rest ->
    is_version_flag secretId = false ->
    is_help_flag secretId = false ->
    resolved_region rest = "" ->
    ParseArgs_case args w
      (Done (Config_zero, Some (errorString region_required)), w)
| parse_ok prog secretId rest :
    args = prog :: secretId :: rest ->
    is_version_flag secretId = false ->
    is_help_flag secretId = false ->
    resolved_region rest <> "" ->
    ParseArgs_case args w
      (Done (mkConfig secretId (resolved_region rest), None), w).

(** The loop of BenchmarkGetSecret (integration_test.go): [N] fetches in a
    row with the same application; the first error ends the loop, as
    [b.Fatalf] does, and is what the loop returns. *)
Fixpoint BenchmarkGetSecret_loop (N : nat) (app : App) : Proc (option error) :=
  match N with
  | O => ret None
  | S N' =>
      do (_, err) <- GetSecret app;
      match err with
      | Some e => ret (Some e)
      | None => BenchmarkGetSecret_loop N' app
      end
  end.

(** * Properties *)

Lemma append_assoc (a b c : string) : (a +:+ b) +:+ c = a +:+ (b +:+ c).
Proof.
  induction a as [|x a IH]; [reflexivity|].
  change (String x ((a +:+ b) +:+ c) = String x (a +:+ (b +:+ c))).
  now rewrite IH.
Qed.

Lemma append_empty_r (a : string) : a +:+ "" = a.
Proof.
  induction a as [|x a IH]; [reflexivity|].
  change (String x (a +:+ "") = String x a). now rewrite IH.
Qed.

Lemma bind_Done {A B} (p : Proc A) (k : A -> Proc B) (w w' : World) (a : A) :
  p w = (Done a, w') -> bind p k w = k a w'.
Proof. intros H. unfold bind. now rewrite H. Qed.

Lemma bind_Exit {A B} (p : Proc A) (k : A -> Proc B) (w w' : World) (c : Z) :
  p w = (Exit c, w') -> bind p k w = (Exit c, w').
Proof. intros H. unfold bind. now rewrite H. Qed.

Lemma bind_Panic {A B} (p : Proc A) (k : A -> Proc B) (w w' : World) (m : string) :
  p w = (Panic m, w') -> bind p k w = (Panic m, w').
Proof. intros H. unfold bind. now rewrite H. Qed.

Section Properties.

Context {build : Build} {host : Host}.

Lemma os_Getenv_empty (key : string) :
  os_Getenv key = "" <-> environ !! key = None \/ environ !! key = Some "".
Proof.
  unfold os_Getenv. destruct (environ !! key) as [v|]; simpl; split.
  - intros ->. now right.
  - intros [H|H]; [discriminate | now inversion H].
  - now left.
  - reflexivity.
Qed.

Lemma ShowVersion_run (w : World) :
  ShowVersion w =
  (Done tt, mkWorld (Stdout w +:+ version_text) (Stderr w) (Trace w)).
Proof.
  unfold ShowVersion, version_text, bind, fmt_Print, ret.
  destruct (String.eqb GitCommit "unknown"),
           (String.eqb BuildTime "unknown"),
           (String.eqb Maintainer ""); cbn [negb Stdout Stderr Trace];
    repeat rewrite append_assoc; repeat rewrite append_empty_r;
    reflexivity.
Qed.

Lemma ShowUsage_run (progName : string) (w : World) :
  ShowUsage progName w =
  (Done tt, mkWorld (Stdout w) (Stderr w +:+ usage_text progName) (Trace w)).
Proof.
  destruct w as [out err tr].
  cbv [ShowUsage usage_text bind fmt_Fprintf_Stderr Stdout Stderr Trace].
  repeat rewrite append_assoc. reflexivity.
Qed.

(** *** [ParseArgs] *)

Lemma ParseArgs_short (args : list string) (w : World) :
  (length args < 2)%nat ->
  ParseArgs args w =
  (Done (Config_zero, Some (errorString "insufficient arguments")), w).
Proof.
  intros H. unfold ParseArgs.
  apply Nat.ltb_lt in H. rewrite H. reflexivity.
Qed.

Lemma ParseArgs_version (prog flag : string) (rest : list string) (w : World) :
  is_version_flag flag = true ->
  ParseArgs (prog :: flag :: rest) w =
  (Exit 0, mkWorld (Stdout w +:+ version_text) (Stderr w) (Trace w)).
Proof.
  intros H. unfold ParseArgs.
  cbn [length Nat.ltb Nat.leb]. unfold bind at 1. cbn [index lookup list_lookup ret].
  unfold bind at 1. rewrite H. unfold bind at 1.
  rewrite ShowVersion_run. reflexivity.
Qed.

Lemma ParseArgs_help (prog flag : string) (rest : list string) (w : World) :
  is_version_flag flag = false ->
  is_help_flag flag = true ->
  ParseArgs (prog :: flag :: rest) w =
  (Exit 0, mkWorld (Stdout w) (Stderr w +:+ usage_text prog) (Trace w)).
Proof.
  intros Hv Hh. unfold ParseArgs.
  cbn [length Nat.ltb Nat.leb]. unfold bind at 1. cbn [index lookup list_lookup ret].
  unfold bind at 1. rewrite Hv. cbn [ret].
  unfold bind at 1. cbn [index lookup list_lookup ret].
  unfold bind at 1. rewrite Hh.
  unfold bind at 1. unfold bind at 1. cbn [index lookup list_lookup ret].
  rewrite ShowUsage_run. reflexivity.
Qed.

Lemma ParseArgs_secret (prog secretId : string) (rest : list string) (w : World) :
  is_version_flag secretId = false ->
  is_help_flag secretId = false ->
  ParseArgs (prog :: secretId :: rest) w =
  if String.eqb (resolved_region rest) ""
  then (Done (Config_zero, Some (errorString region_required)), w)
  else (Done (mkConfig secretId (resolved_region rest), None), w).
Proof.
  intros Hv Hh. unfold ParseArgs.
  cbn [length Nat.ltb Nat.leb]. unfold bind. cbn [index lookup list_lookup ret].
  rewrite Hv, Hh. cbn [ret].
  destruct rest as [|region rest]; cbn [length Nat.ltb Nat.leb resolved_region
    index lookup list_lookup ret].
  - destruct (String.eqb (os_Getenv "AWS_REGION") ""); reflexivity.
  - destruct (String.eqb region ""); reflexivity.
Qed.

Lemma ParseArgs_cases (args : list string) (w : World) :
  ParseArgs_case args w (ParseArgs args w).
Proof.
  destruct args as [|prog [|a1 rest]].
  - rewrite ParseArgs_short by (cbn; lia). constructor. cbn; lia.
  - rewrite ParseArgs_short by (cbn; lia). constructor. cbn; lia.
  - destruct (is_version_flag a1) eqn:Hv.
    { rewrite ParseArgs_version by exact Hv. now eapply parse_version. }
    destruct (is_help_flag a1) eqn:Hh.
    { rewrite ParseArgs_help by assumption. now eapply parse_help. }
    rewrite ParseArgs_secret by assumption.
    destruct (String.eqb_spec (resolved_region rest) "") as [He|Hne].
    + now eapply parse_no_region.
    + now eapply parse_ok.
Qed.

Lemma not_informational (prog a : string) (rest : list string) :
  informational (prog :: a :: rest) = false ->
  is_version_flag a = false /\ is_help_flag a = false.
Proof.
  unfold informational. cbn [lookup list_lookup].
  intros H. now apply orb_false_iff in H.
Qed.

(** Case analysis on what [ParseArgs] did with [args] from the initial
    world; [Heq] names the equation for [ParseArgs args initial]. *)
Ltac parse_cases args Heq :=
  let Hc := fresh "Hc" in
  pose proof (ParseArgs_cases args initial) as Hc;
  inversion Hc as [Hlen Heq
                  |prog flag rest -> Hv Heq
                  |prog flag rest -> Hv Hh Heq
                  |prog sid rest -> Hv Hh Hr Heq
                  |prog sid rest -> Hv Hh Hr Heq];
  symmetry in Heq.

(** A flag contradicts [informational args = false]. *)
Ltac no_flag Hinf :=
  exfalso; apply not_informational in Hinf as [? ?]; congruence.

(** *** [GetSecret], [NewApp] and [main] *)

Lemma GetSecret_run (app : App) (w : World) :
  GetSecret app w =
  let w1 := called (EvGetSecretValue (request_of (AppConfig app))) w in
  match GetSecretValue (Client app) (request_of (AppConfig app)) with
  | (_, Some e) =>
      (Done ("", Some (fmt_Errorf_w "failed to get secret value: " e)), w1)
  | (None, None) => (Panic nil_dereference, w1)
  | (Some r, None) =>
      match SecretString r with
      | None =>
          (Done ("", Some (errorString "secret does not contain a string value")), w1)
      | Some s => (Done (s, None), w1)
      end
  end.
Proof.
  unfold GetSecret, request_of, bind, emit, called. cbn zeta.
  destruct (GetSecretValue (Client app) _) as [[r|] [e|]]; try reflexivity.
  destruct (SecretString r); reflexivity.
Qed.

Lemma main_parsed (args : list string) (cfg : Config) (w w' : World) :
  ParseArgs args w = (Done (cfg, None), w') ->
  main args w =
  let w1 := called (EvLoadDefaultConfig (Region cfg)) w' in
  match config_LoadDefaultConfig (Region cfg) with
  | inr err =>
      (Exit 1,
       logged ("Failed to initialize application: " +:+
               "failed to load AWS config: " +:+ Error err) w1)
  | inl awsCfg =>
      let w2 := called (EvGetSecretValue (request_of cfg)) w1 in
      match GetSecretValue (secretsmanager_NewFromConfig awsCfg) (request_of cfg) with
      | (_, Some e) =>
          (Exit 1,
           logged ("Failed to get secret: " +:+
                   "failed to get secret value: " +:+ Error e) w2)
      | (None, None) => (Panic nil_dereference, w2)
      | (Some r, None) =>
          match SecretString r with
          | None =>
              (Exit 1,
               logged ("Failed to get secret: " +:+
                       "secret does not contain a string value") w2)
          | Some s => (Done tt, mkWorld (Stdout w2 +:+ s) (Stderr w2) (Trace w2))
          end
      end
  end.
Proof.
  intros H. unfold main. unfold bind at 1. rewrite H.
  unfold bind at 1. unfold NewApp. unfold bind at 1.
  cbn [emit]. fold (called (EvLoadDefaultConfig (Region cfg)) w').
  cbn zeta.
  destruct (config_LoadDefaultConfig (Region cfg)) as [awsCfg|err].
  - cbn [ret]. unfold bind at 1. rewrite GetSecret_run.
    cbn [Client AppConfig]. cbn zeta.
    destruct (GetSecretValue _ _) as [[r|] [e|]]; try reflexivity.
    destruct (SecretString r) as [s|]; [|reflexivity].
    unfold FormatOutput. destruct (json_Unmarshal s); reflexivity.
  - reflexivity.
Qed.

Lemma main_parse_failed (args : list string) (e : error) (cfg : Config)
      (w w' : World) :
  ParseArgs args w = (Done (cfg, Some e), w') ->
  String.eqb (Error e) "insufficient arguments" = false ->
  main args w =
  (Exit 1, mkWorld (Stdout w') (Stderr w' +:+ "Error: " +:+ Error e +:+ nl) (Trace w')).
Proof.
  intros H Hne. unfold main. unfold bind at 1. rewrite H.
  rewrite Hne. reflexivity.
Qed.

Lemma main_short (args : list string) :
  (length args < 2)%nat ->
  main args initial =
  match args with
  | [] => (Panic "runtime error: index out of range", initial)
  | prog :: _ => (Exit 1, mkWorld "" (usage_text prog) [])
  end.
Proof.
  intros H. unfold main. unfold bind at 1. rewrite (ParseArgs_short _ _ H).
  cbn [Error String.eqb Ascii.eqb Bool.eqb].
  destruct args as [|prog args]; [reflexivity|].
  unfold bind at 1. unfold bind at 1.
  cbn [index lookup list_lookup ret]. now rewrite ShowUsage_run.
Qed.

Lemma main_flagged (args : list string) (code : Z) (w w' : World) :
  ParseArgs args w = (Exit code, w') -> main args w = (Exit code, w').
Proof.
  intros H. unfold main. unfold bind at 1. now rewrite H.
Qed.

Lemma Monolith_main_run (args : list string) :
  Monolith.main args initial =
  match args with
  | [] => (Panic "runtime error: index out of range", initial)
  | [prog] => (Exit 1, mkWorld "" (short_usage_text prog) [])
  | prog :: secretId :: rest =>
      let region := resolved_region rest in
      if String.eqb region "" then (Exit 1, logged region_required initial)
      else
        let w1 := called (EvLoadDefaultConfig region) initial in
        match config_LoadDefaultConfig region with
        | inr err => (Exit 1, logged ("Failed to load AWS config: " +:+ Error err) w1)
        | inl awsCfg =>
            let input := mkInput (Some secretId) in
            let w2 := called (EvGetSecretValue input) w1 in
            match GetSecretValue (secretsmanager_NewFromConfig awsCfg) input with
            | (_, Some e) =>
                (Exit 1, logged ("Failed to get secret value: " +:+ Error e) w2)
            | (None, None) => (Panic nil_dereference, w2)
            | (Some r, None) =>
                match SecretString r with
                | None => (Exit 1, logged "Secret does not contain a string value" w2)
                | Some s => (Done tt, mkWorld (Stdout w2 +:+ s) (Stderr w2) (Trace w2))
                end
            end
        end
  end.
Proof.
  destruct args as [|prog [|secretId rest]]; [reflexivity| |].
  { cbv [Monolith.main short_usage_text bind fmt_Fprintf_Stderr index ret
         os_Exit initial Stdout Stderr Trace length Nat.ltb Nat.leb
         lookup list_lookup].
    repeat rewrite append_assoc. reflexivity. }
  unfold Monolith.main. cbn [length Nat.ltb Nat.leb].
  unfold bind at 1. cbn [ret]. unfold bind at 1. cbn [index lookup list_lookup ret].
  cbn zeta.
  assert (Hr : forall k : string -> Proc unit,
             bind (if (2 <? length (prog :: secretId :: rest))%nat
                   then index (prog :: secretId :: rest) 2
                   else ret (os_Getenv "AWS_REGION")) k initial
             = k (resolved_region rest) initial).
  { intros k. destruct rest as [|r rest]; reflexivity. }
  rewrite Hr. clear Hr.
  destruct (String.eqb (resolved_region rest) ""); [reflexivity|].
  unfold bind at 1. cbn [ret]. unfold bind at 1. cbn [emit].
  fold (called (EvLoadDefaultConfig (resolved_region rest)) initial).
  destruct (config_LoadDefaultConfig _) as [awsCfg|err]; [|reflexivity].
  unfold bind at 1. cbn [emit].
  destruct (GetSecretValue _ _) as [[r|] [e|]]; try reflexivity.
  destruct (SecretString r) as [s|]; [|reflexivity].
  destruct (json_Unmarshal s); reflexivity.
Qed.

Lemma Monolith_main_from (args : list string) (w : World) :
  Monolith.main args w =
  match args with
  | [] => (Panic "runtime error: index out of range", w)
  | [prog] =>
      (Exit 1, mkWorld (Stdout w) (Stderr w +:+ short_usage_text prog) (Trace w))
  | prog :: secretId :: rest =>
      let region := resolved_region rest in
      if String.eqb region "" then (Exit 1, logged region_required w)
      else
        let w1 := called (EvLoadDefaultConfig region) w in
        match config_LoadDefaultConfig region with
        | inr err => (Exit 1, logged ("Failed to load AWS config: " +:+ Error err) w1)
        | inl awsCfg =>
            let input := mkInput (Some secretId) in
            let w2 := called (EvGetSecretValue input) w1 in
            match GetSecretValue (secretsmanager_NewFromConfig awsCfg) input with
            | (_, Some e) =>
                (Exit 1, logged ("Failed to get secret value: " +:+ Error e) w2)
            | (None, None) => (Panic nil_dereference, w2)
            | (Some r, None) =>
                match SecretString r with
                | None => (Exit 1, logged "Secret does not contain a string value" w2)
                | Some s => (Done tt, mkWorld (Stdout w2 +:+ s) (Stderr w2) (Trace w2))
                end
            end
        end
  end.
Proof.
  destruct args as [|prog [|secretId rest]]; [reflexivity| |].
  { destruct w as [out err tr].
    cbv [Monolith.main short_usage_text bind fmt_Fprintf_Stderr index ret
         os_Exit Stdout Stderr Trace length Nat.ltb Nat.leb
         lookup list_lookup].
    repeat rewrite append_assoc. reflexivity. }
  unfold Monolith.main. cbn [length Nat.ltb Nat.leb].
  unfold bind at 1. cbn [ret]. unfold bind at 1. cbn [index lookup list_lookup ret].
  cbn zeta.
  assert (Hr : forall k : string -> Proc unit,
             bind (if (2 <? length (prog :: secretId :: rest))%nat
                   then index (prog :: secretId :: rest) 2
                   else ret (os_Getenv "AWS_REGION")) k w
             = k (resolved_region rest) w).
  { intros k. destruct rest as [|r rest]; reflexivity. }
  rewrite Hr. clear Hr.
  destruct (String.eqb (resolved_region rest) ""); [reflexivity|].
  unfold bind at 1. cbn [ret]. unfold bind at 1. cbn [emit].
  fold (called (EvLoadDefaultConfig (resolved_region rest)) w).
  destruct (config_LoadDefaultConfig _) as [awsCfg|err]; [|reflexivity].
  unfold bind at 1. cbn [emit].
  destruct (GetSecretValue _ _) as [[r|] [e|]]; try reflexivity.
  destruct (SecretString r) as [s|]; [|reflexivity].
  destruct (json_Unmarshal s); reflexivity.
Qed.

(** *** The formatter *)

(** C1.  [FormatOutput] returns its argument, whatever the string and
    whatever the JSON decoder answers about it: the parse attempt never
    changes the result.  [FormatOutput] is a function from strings to
    strings, so it is pure and total. *)
Theorem FormatOutput_identity (x : string) : FormatOutput x = x.
Proof.
  unfold FormatOutput. destruct (json_Unmarshal x) as [e|]; reflexivity.
Qed.

(** *** Arguments *)

(** C10.  Tokens after the third are ignored: with more than three tokens
    [ParseArgs] does exactly what it does on the first three, in the value
    it returns (configuration and error) and in what it prints or how it
    exits.  The same holds of the whole run of src/main.go, which reads its
    arguments the same way. *)
Theorem ParseArgs_ignores_extra_tokens (args : list string) (w : World) :
  (3 < length args)%nat ->
  ParseArgs args w = ParseArgs (take 3 args) w /\
  Monolith.main args w = Monolith.main (take 3 args) w.
Proof.
  intros _.
  destruct args as [|a0 [|a1 [|a2 rest]]]; split; reflexivity.
Qed.

(** C5.  With [--version] or [-v] as first positional token the program
    prints the version text on standard output, with [--help] or [-h] the
    usage text on standard error; in all four cases it ends with exit code
    0 and has made no call to the SDK, whatever tokens follow. *)
Theorem informational_flags_exit_0 (prog : string) (rest : list string) :
  main (prog :: "--version" :: rest) initial
    = (Exit 0, mkWorld version_text "" []) /\
  main (prog :: "-v" :: rest) initial
    = (Exit 0, mkWorld version_text "" []) /\
  main (prog :: "--help" :: rest) initial
    = (Exit 0, mkWorld "" (usage_text prog) []) /\
  main (prog :: "-h" :: rest) initial
    = (Exit 0, mkWorld "" (usage_text prog) []).
Proof.
  repeat split; apply main_flagged.
  - now rewrite ParseArgs_version.
  - now rewrite ParseArgs_version.
  - now rewrite ParseArgs_help.
  - now rewrite ParseArgs_help.
Qed.

(** C3.  With fewer than two tokens parsing fails with the usage error
    and touches nothing; the process ends with a non-zero status, nothing
    on standard output and no call to the SDK; and when the vector is the
    program name alone, the status is 1 and standard error holds the usage
    text for that name; the program of src/main.go does the same with its
    shorter usage text.  (With no token at all [main] cannot read the
    program name: it ends in the index panic, status 2.) *)
Theorem too_few_arguments (args : list string) :
  (length args < 2)%nat ->
  (forall w, ParseArgs args w =
     (Done (Config_zero, Some (errorString "insufficient arguments")), w)) /\
  exit_status (fst (main args initial)) <> 0 /\
  Stdout (snd (main args initial)) = "" /\
  Trace (snd (main args initial)) = [] /\
  (forall prog, args = [prog] ->
     main args initial = (Exit 1, mkWorld "" (usage_text prog) []) /\
     Monolith.main args initial = (Exit 1, mkWorld "" (short_usage_text prog) [])).
Proof.
  intros H. split; [intros w; now apply ParseArgs_short|].
  rewrite (main_short _ H), Monolith_main_run.
  destruct args as [|prog [|a1 args]]; cbn [length] in H; try lia.
  - split; [discriminate|]. split; [reflexivity|]. split; [reflexivity|].
    intros p Hp. discriminate.
  - split; [discriminate|]. split; [reflexivity|]. split; [reflexivity|].
    intros p [= ->]. split; reflexivity.
Qed.

(** C2 (amended).  For a vector [prog; secretId] with the region in
    [AWS_REGION], or [prog; secretId; region], where [secretId] is none of
    the four flags and the region is not empty, [ParseArgs] returns the
    configuration of that secret id and region with no error, and prints
    nothing.  In the second form the environment plays no part: the
    argument wins. *)
Theorem ParseArgs_resolves_region
        (prog secretId region : string) (rest : list string) (w : World) :
  is_version_flag secretId = false ->
  is_help_flag secretId = false ->
  region <> "" ->
  (rest = [] /\ environ !! "AWS_REGION" = Some region) \/ rest = [region] ->
  ParseArgs (prog :: secretId :: rest) w =
  (Done (mkConfig secretId region, None), w).
Proof.
  intros Hv Hh Hne Hsrc.
  rewrite ParseArgs_secret by assumption.
  assert (Hr : resolved_region rest = region).
  { destruct Hsrc as [[-> Henv] | ->]; cbn [resolved_region]; [|reflexivity].
    unfold os_Getenv. now rewrite Henv. }
  rewrite Hr. apply String.eqb_neq in Hne. now rewrite Hne.
Qed.

(** C4 (amended).  For a vector [prog; secretId] where [secretId] is none
    of the four flags and [AWS_REGION] is unset or empty, [ParseArgs]
    returns the error that says the region must come from the environment
    variable or the second argument; [main] then writes that error to
    standard error and exits with status 1, with nothing on standard output
    and no call to the SDK. *)
Theorem region_unresolved (prog secretId : string) :
  is_version_flag secretId = false ->
  is_help_flag secretId = false ->
  environ !! "AWS_REGION" = None \/ environ !! "AWS_REGION" = Some "" ->
  (forall w, ParseArgs [prog; secretId] w =
     (Done (Config_zero, Some (errorString
        "AWS region must be specified either via AWS_REGION environment variable or as second argument")), w)) /\
  main [prog; secretId] initial =
    (Exit 1,
     mkWorld ""
       ("Error: AWS region must be specified either via AWS_REGION environment variable or as second argument" +:+ nl)
       []).
Proof.
  intros Hv Hh Henv.
  assert (Hp : forall w, ParseArgs [prog; secretId] w =
                 (Done (Config_zero, Some (errorString region_required)), w)).
  { intros w. rewrite ParseArgs_secret by assumption.
    cbn [resolved_region]. apply os_Getenv_empty in Henv. now rewrite Henv. }
  split; [exact Hp|].
  now rewrite (main_parse_failed _ _ _ _ _ (Hp initial)).
Qed.

(** C7 (amended).  A configuration that [ParseArgs] returns without error
    has a non-empty region, and its secret id is the second token as it
    stands; an unresolved region ends the run before any call.  So a
    request for a secret is only ever sent after the SDK configuration was
    loaded for a non-empty region, and it asks for the second token.
    (The parser does not look at the secret id: [prog ""] with a region
    parses to a configuration whose secret id is empty.) *)
Theorem parsed_Config_has_region (args : list string) :
  (forall w w' cfg,
     ParseArgs args w = (Done (cfg, None), w') ->
     Region cfg <> "" /\ args !! 1%nat = Some (SecretID cfg) /\ w' = w) /\
  (forall input,
     In (EvGetSecretValue input) (Trace (snd (main args initial))) ->
     exists region,
       region <> "" /\
       Trace (snd (main args initial)) =
         [EvLoadDefaultConfig region; EvGetSecretValue input] /\
       SecretId input = args !! 1%nat).
Proof.
  split.
  - intros w w' cfg H.
    pose proof (ParseArgs_cases args w) as Hc. rewrite H in Hc.
    inversion Hc; subst. repeat split; auto.
  - intros input Hin.
    parse_cases args Heq.
    + rewrite (main_short _ Hlen) in Hin.
      destruct args as [|prog args]; destruct Hin.
    + rewrite (main_flagged _ _ _ _ Heq) in Hin. destruct Hin.
    + rewrite (main_flagged _ _ _ _ Heq) in Hin. destruct Hin.
    + rewrite (main_parse_failed _ _ _ _ _ Heq) in Hin by reflexivity.
      destruct Hin.
    + rewrite (main_parsed _ _ _ _ Heq) in Hin.
      rewrite (main_parsed _ _ _ _ Heq).
      cbn zeta in *. cbn [Region SecretID] in *.
      exists (resolved_region rest). split; [exact Hr|].
      destruct (config_LoadDefaultConfig (resolved_region rest)) as [awsCfg|err].
      * destruct (GetSecretValue _ _) as [[r|] [e|]];
          try destruct (SecretString r);
          cbn in Hin; destruct Hin as [Hin|[Hin|[]]]; try discriminate;
          injection Hin as <-; repeat split; reflexivity.
      * cbn in Hin. destruct Hin as [Hin|[]]. discriminate.
Qed.

(** *** Fetching and printing *)

(** C6 (amended).  [GetSecret] sends exactly one request, for the
    configured secret id, whatever comes back.  When the client returns an
    error, the result is an error that wraps it, with the message
    "failed to get secret value: " followed by the cause; when the response
    has no [SecretString], the result is the error
    "secret does not contain a string value"; the two messages never
    coincide.  A [SecretString] that is present is returned as it is, with
    no error, also when it is the empty string. *)
Theorem GetSecret_one_call (app : App) (w : World) :
  snd (GetSecret app w) =
    mkWorld (Stdout w) (Stderr w)
      (Trace w ++ [EvGetSecretValue (mkInput (Some (SecretID (AppConfig app))))]) /\
  fst (GetSecret app w) =
    match GetSecretValue (Client app) (mkInput (Some (SecretID (AppConfig app)))) with
    | (_, Some e) =>
        Done ("", Some (wrapError ("failed to get secret value: " +:+ Error e) e))
    | (None, None) => Panic nil_dereference
    | (Some r, None) =>
        match SecretString r with
        | None =>
            Done ("", Some (errorString "secret does not contain a string value"))
        | Some s => Done (s, None)
        end
    end /\
  (forall e,
     Error (fmt_Errorf_w "failed to get secret value: " e) <>
     "secret does not contain a string value") /\
  (forall e, Unwrap (fmt_Errorf_w "failed to get secret value: " e) = Some e).
Proof.
  rewrite GetSecret_run. cbn zeta. unfold request_of, called.
  repeat split.
  - destruct (GetSecretValue _ _) as [[r|] [e|]]; try reflexivity.
    destruct (SecretString r); reflexivity.
  - destruct (GetSecretValue _ _) as [[r|] [e|]]; try reflexivity.
    destruct (SecretString r); reflexivity.
  - intros e. cbn. discriminate.
Qed.

(** C8.  When the arguments parse, the SDK configuration loads and the
    client answers the request with a [SecretString] [V], the program puts
    exactly [V] on standard output, nothing on standard error, and returns
    from [main] (exit code 0) after one configuration load and one request.
    For any client that answers with [V], fetching, formatting and printing
    add exactly [V] to standard output. *)
Theorem main_prints_secret
        (args : list string) (cfg : Config) (awsCfg : aws_Config)
        (out : GetSecretValueOutput) (V : string) :
  ParseArgs args initial = (Done (cfg, None), initial) ->
  config_LoadDefaultConfig (Region cfg) = inl awsCfg ->
  GetSecretValue (secretsmanager_NewFromConfig awsCfg)
                 (mkInput (Some (SecretID cfg))) = (Some out, None) ->
  SecretString out = Some V ->
  main args initial =
    (Done tt,
     mkWorld V ""
       [EvLoadDefaultConfig (Region cfg);
        EvGetSecretValue (mkInput (Some (SecretID cfg)))]) /\
  exit_status (fst (main args initial)) = 0 /\
  (forall (client : SecretsManagerClient) (w : World),
     GetSecretValue client (mkInput (Some (SecretID cfg))) = (Some out, None) ->
     (do (secretValue, _) <- GetSecret (mkApp client cfg);
      fmt_Print (FormatOutput secretValue)) w =
     (Done tt,
      mkWorld (Stdout w +:+ V) (Stderr w)
        (Trace w ++ [EvGetSecretValue (mkInput (Some (SecretID cfg)))]))).
Proof.
  intros Hp Hl Hc Hs.
  assert (Hm : main args initial =
               (Done tt,
                mkWorld V ""
                  [EvLoadDefaultConfig (Region cfg);
                   EvGetSecretValue (mkInput (Some (SecretID cfg)))])).
  { rewrite (main_parsed _ _ _ _ Hp). cbn zeta. rewrite Hl.
    unfold request_of. rewrite Hc, Hs. reflexivity. }
  split; [exact Hm|]. split; [now rewrite Hm|].
  intros client w Hcl. unfold bind. rewrite GetSecret_run.
  cbn zeta. cbn [Client AppConfig]. unfold request_of. rewrite Hcl, Hs.
  unfold FormatOutput. destruct (json_Unmarshal V); reflexivity.
Qed.

(** C9 (amended).  For every invocation whose first positional token is
    not an informational flag there are two ways to end.  Either the
    arguments parsed, the configuration loaded, the client answered with a
    [SecretString] [V], and the program ends with status 0 and exactly [V]
    on standard output; or the status is not 0 and standard output is
    empty.  In particular a client that returns an error, no output, or an
    output without [SecretString] gives the second. *)
Theorem all_or_nothing (args : list string) :
  informational args = false ->
  ((exit_status (fst (main args initial)) = 0 /\
    exists cfg awsCfg out V,
      ParseArgs args initial = (Done (cfg, None), initial) /\
      config_LoadDefaultConfig (Region cfg) = inl awsCfg /\
      GetSecretValue (secretsmanager_NewFromConfig awsCfg) (request_of cfg)
        = (Some out, None) /\
      SecretString out = Some V /\
      Stdout (snd (main args initial)) = V)
   \/
   (exit_status (fst (main args initial)) <> 0 /\
    Stdout (snd (main args initial)) = "")) /\
  (forall cfg awsCfg,
     ParseArgs args initial = (Done (cfg, None), initial) ->
     config_LoadDefaultConfig (Region cfg) = inl awsCfg ->
     no_payload (GetSecretValue (secretsmanager_NewFromConfig awsCfg)
                                (request_of cfg)) = true ->
     exit_status (fst (main args initial)) <> 0 /\
     Stdout (snd (main args initial)) = "").
Proof.
  intros Hinf. split.
  - parse_cases args Heq.
    + right. rewrite (main_short _ Hlen).
      destruct args as [|prog args]; split; cbn; congruence.
    + no_flag Hinf.
    + no_flag Hinf.
    + right. rewrite (main_parse_failed _ _ _ _ _ Heq) by reflexivity.
      split; cbn; congruence.
    + rewrite (main_parsed _ _ _ _ Heq). cbn zeta.
      destruct (config_LoadDefaultConfig _) as [awsCfg|err] eqn:Hl;
        [|right; split; cbn; congruence].
      destruct (GetSecretValue _ _) as [[r|] [e|]] eqn:Hg;
        try (right; split; cbn; congruence).
      destruct (SecretString r) as [V|] eqn:Hs;
        [|right; split; cbn; congruence].
      left. split; [reflexivity|].
      exists (mkConfig sid (resolved_region rest)), awsCfg, r, V.
      repeat split; assumption || reflexivity.
  - intros cfg awsCfg Hp Hl Hn.
    rewrite (main_parsed _ _ _ _ Hp). cbn zeta. rewrite Hl.
    unfold no_payload in Hn.
    destruct (GetSecretValue _ _) as [[r|] [e|]];
      try (split; cbn; congruence).
    destruct (SecretString r); [discriminate|split; cbn; congruence].
Qed.

(** *** The program before the flags *)

(** Without the flag tests every second token is a secret id: the
    predecessor's [ParseArgs] resolves the region for all of them, and on
    tokens that are no flags the two parsers do the same. *)
Lemma Unflagged_ParseArgs_secret
      (prog secretId : string) (rest : list string) (w : World) :
  Unflagged.ParseArgs (prog :: secretId :: rest) w =
  if String.eqb (resolved_region rest) ""
  then (Done (Config_zero, Some (errorString region_required)), w)
  else (Done (mkConfig secretId (resolved_region rest), None), w).
Proof.
  unfold Unflagged.ParseArgs.
  cbn [length Nat.ltb Nat.leb]. unfold bind. cbn [index lookup list_lookup ret].
  destruct rest as [|region rest]; cbn [length Nat.ltb Nat.leb resolved_region
    index lookup list_lookup ret].
  - destruct (String.eqb (os_Getenv "AWS_REGION") ""); reflexivity.
  - destruct (String.eqb region ""); reflexivity.
Qed.


(** *** The program of src/main.go *)

(** X18.  The program of src/main.go has no flags, and there the rule has
    no exception: a run ends either with status 0 and the fetched string on
    standard output, or with another status and nothing on it. *)
Lemma Monolith_all_or_nothing (args : list string) :
  (exit_status (fst (Monolith.main args initial)) = 0 /\
   exists prog secretId rest awsCfg out V,
     args = prog :: secretId :: rest /\
     config_LoadDefaultConfig (resolved_region rest) = inl awsCfg /\
     GetSecretValue (secretsmanager_NewFromConfig awsCfg) (mkInput (Some secretId))
       = (Some out, None) /\
     SecretString out = Some V /\
     Stdout (snd (Monolith.main args initial)) = V)
  \/
  (exit_status (fst (Monolith.main args initial)) <> 0 /\
   Stdout (snd (Monolith.main args initial)) = "").
Proof.
  rewrite Monolith_main_run.
  destruct args as [|prog [|secretId rest]];
    try (right; split; cbn; congruence).
  cbn zeta.
  destruct (String.eqb (resolved_region rest) "");
    [right; split; cbn; congruence|].
  destruct (config_LoadDefaultConfig _) as [awsCfg|err] eqn:Hl;
    [|right; split; cbn; congruence].
  destruct (GetSecretValue _ _) as [[r|] [e|]] eqn:Hg;
    try (right; split; cbn; congruence).
  destruct (SecretString r) as [V|] eqn:Hs;
    [|right; split; cbn; congruence].
  left. split; [reflexivity|].
  exists prog, secretId, rest, awsCfg, r, V. repeat split; assumption.
Qed.

(** X19.  Apart from the flags, the structured program is the program of
    src/main.go with other words on standard error: same exit status, same
    standard output, same calls. *)
Lemma structured_agrees_with_Monolith (args : list string) :
  informational args = false ->
  exit_status (fst (main args initial))
    = exit_status (fst (Monolith.main args initial)) /\
  Stdout (snd (main args initial)) = Stdout (snd (Monolith.main args initial)) /\
  Trace (snd (main args initial)) = Trace (snd (Monolith.main args initial)).
Proof.
  intros Hinf. rewrite Monolith_main_run.
  parse_cases args Heq.
  - rewrite (main_short _ Hlen).
    destruct args as [|prog [|a1 args]]; cbn [length] in Hlen; try lia;
      repeat split.
  - no_flag Hinf.
  - no_flag Hinf.
  - rewrite (main_parse_failed _ _ _ _ _ Heq) by reflexivity.
    cbn zeta. rewrite Hr. repeat split.
  - rewrite (main_parsed _ _ _ _ Heq). cbn zeta. cbn [Region SecretID].
    apply String.eqb_neq in Hr. rewrite Hr. unfold request_of. cbn [SecretID].
    destruct (config_LoadDefaultConfig _) as [awsCfg|err]; [|repeat split].
    destruct (GetSecretValue _ _) as [[r|] [e|]];
      try destruct (SecretString r); repeat split.
Qed.

(** * Further properties of the code *)

(** *** The parser *)

(** X1.  [ParseArgs] never panics, although it indexes its argument three
    times: every index is guarded by a length test.  When it returns, the
    world is as it was and an error comes with the zero configuration; when
    it ends the process, the code is 0, the second token is a flag, and no
    call was made. *)
Theorem ParseArgs_never_panics (args : list string) (w : World) :
  match fst (ParseArgs args w) with
  | Done (cfg, err) =>
      snd (ParseArgs args w) = w /\ (err = None \/ cfg = Config_zero)
  | Exit code =>
      code = 0 /\ informational args = true /\
      Trace (snd (ParseArgs args w)) = Trace w
  | Panic _ => False
  end.
Proof.
  pose proof (ParseArgs_cases args w) as Hc.
  inversion Hc as [Hlen Heq|prog flag rest -> Hv Heq|prog flag rest -> Hv Hh Heq
                  |prog sid rest -> Hv Hh Hr Heq|prog sid rest -> Hv Hh Hr Heq];
    cbn [fst snd].
  - split; [reflexivity|now right].
  - repeat split. unfold informational. cbn [lookup list_lookup]. now rewrite Hv.
  - repeat split. unfold informational. cbn [lookup list_lookup].
    now rewrite Hh, orb_true_r.
  - split; [reflexivity|now right].
  - split; [reflexivity|now left].
Qed.

(** *** How a run ends *)

Lemma append_eq_empty (a b : string) : a +:+ b = "" -> a = "" /\ b = "".
Proof. destruct a; [now split | discriminate]. Qed.

Lemma logged_not_empty (msg : string) (w : World) :
  Stderr (logged msg w) <> "".
Proof.
  unfold logged, log_line. cbn [Stderr]. intros H.
  apply append_eq_empty in H as [_ H].
  apply append_eq_empty in H as [_ H].
  apply append_eq_empty in H as [-> H].
  discriminate H.
Qed.

(** A text that starts with a literal is not empty. *)
Ltac text_not_empty :=
  let H := fresh "H" in
  intros H;
  lazy [String.append Stderr initial usage_text short_usage_text] in H;
  discriminate H.

(** X2.  Every run of the structured program ends in one of four ways.
    [main] returns (status 0): then nothing was written to standard error.
    The process exits with 0: then the second token was a flag.  It exits
    with 1: then standard output is empty and standard error is not, so every
    failure the program handles is reported.  Or it panics: then there was no
    token at all, or the client returned neither an output nor an error.  No
    other exit code occurs. *)
Theorem main_outcomes (args : list string) :
  match fst (main args initial) with
  | Done _ => Stderr (snd (main args initial)) = ""
  | Exit code =>
      (code = 0 /\ informational args = true) \/
      (code = 1 /\ Stdout (snd (main args initial)) = "" /\
       Stderr (snd (main args initial)) <> "")
  | Panic _ =>
      args = [] \/
      exists cfg awsCfg,
        ParseArgs args initial = (Done (cfg, None), initial) /\
        config_LoadDefaultConfig (Region cfg) = inl awsCfg /\
        GetSecretValue (secretsmanager_NewFromConfig awsCfg) (request_of cfg)
          = (None, None)
  end.
Proof.
  parse_cases args Heq.
  - rewrite (main_short _ Hlen). destruct args as [|prog args]; cbn [fst snd].
    + now left.
    + right. repeat split. text_not_empty.
  - rewrite (main_flagged _ _ _ _ Heq). cbn [fst]. left. split; [reflexivity|].
    unfold informational. cbn [lookup list_lookup]. now rewrite Hv.
  - rewrite (main_flagged _ _ _ _ Heq). cbn [fst]. left. split; [reflexivity|].
    unfold informational. cbn [lookup list_lookup]. now rewrite Hh, orb_true_r.
  - rewrite (main_parse_failed _ _ _ _ _ Heq) by reflexivity. cbn [fst snd].
    right. repeat split. text_not_empty.
  - rewrite (main_parsed _ _ _ _ Heq). cbn zeta.
    destruct (config_LoadDefaultConfig _) as [awsCfg|err] eqn:Hl.
    + destruct (GetSecretValue _ _) as [[r|] [e|]] eqn:Hg; cbn [fst snd].
      * right. repeat split. apply logged_not_empty.
      * destruct (SecretString r); cbn [fst snd].
        -- reflexivity.
        -- right. repeat split. apply logged_not_empty.
      * right. repeat split. apply logged_not_empty.
      * right. eexists _, awsCfg. repeat split; eassumption.
    + cbn [fst snd]. right. repeat split. apply logged_not_empty.
Qed.

(** X3.  When the SDK configuration cannot be loaded, [NewApp] returns no
    application and an error that wraps the cause, and [main] logs
    "Failed to initialize application: failed to load AWS config: " and the
    cause's message on standard error and exits with 1: standard output
    stays empty and no request for the secret is sent. *)
Theorem main_config_failure
        (args : list string) (cfg : Config) (cause : error) :
  ParseArgs args initial = (Done (cfg, None), initial) ->
  config_LoadDefaultConfig (Region cfg) = inr cause ->
  (forall w,
     NewApp cfg w =
     (Done (None, Some (wrapError ("failed to load AWS config: " +:+ Error cause) cause)),
      mkWorld (Stdout w) (Stderr w) (Trace w ++ [EvLoadDefaultConfig (Region cfg)]))) /\
  main args initial =
    (Exit 1,
     mkWorld ""
       (log_line ("Failed to initialize application: failed to load AWS config: "
                  +:+ Error cause))
       [EvLoadDefaultConfig (Region cfg)]).
Proof.
  intros Hp Hl. split.
  - intros w. unfold NewApp, bind, emit. now rewrite Hl.
  - rewrite (main_parsed _ _ _ _ Hp). cbn zeta. rewrite Hl. reflexivity.
Qed.

(** X4.  When the client returns an error, the run logs
    "Failed to get secret: failed to get secret value: " and the cause's
    message on standard error and exits with 1 with nothing on standard
    output, after one configuration load and one request.  The error wins
    over any output returned with it: a [SecretString] that came along is
    not printed. *)
Theorem main_fetch_failure
        (args : list string) (cfg : Config) (awsCfg : aws_Config)
        (resp : option GetSecretValueOutput) (cause : error) :
  ParseArgs args initial = (Done (cfg, None), initial) ->
  config_LoadDefaultConfig (Region cfg) = inl awsCfg ->
  GetSecretValue (secretsmanager_NewFromConfig awsCfg)
                 (mkInput (Some (SecretID cfg))) = (resp, Some cause) ->
  main args initial =
    (Exit 1,
     mkWorld ""
       (log_line ("Failed to get secret: failed to get secret value: "
                  +:+ Error cause))
       [EvLoadDefaultConfig (Region cfg);
        EvGetSecretValue (mkInput (Some (SecretID cfg)))]).
Proof.
  intros Hp Hl Hg.
  rewrite (main_parsed _ _ _ _ Hp). cbn zeta. rewrite Hl.
  unfold request_of. rewrite Hg. destruct resp; reflexivity.
Qed.

(** X5.  When the client answers without error and the output has no
    [SecretString], as for a secret stored as binary, the run logs
    "Failed to get secret: secret does not contain a string value" and
    exits with 1; whatever [SecretBinary] holds, none of it reaches
    standard output. *)
Theorem main_secret_without_string
        (args : list string) (cfg : Config) (awsCfg : aws_Config)
        (binary : option (list ascii)) :
  ParseArgs args initial = (Done (cfg, None), initial) ->
  config_LoadDefaultConfig (Region cfg) = inl awsCfg ->
  GetSecretValue (secretsmanager_NewFromConfig awsCfg)
                 (mkInput (Some (SecretID cfg)))
    = (Some (mkOutput None binary), None) ->
  main args initial =
    (Exit 1,
     mkWorld ""
       (log_line "Failed to get secret: secret does not contain a string value")
       [EvLoadDefaultConfig (Region cfg);
        EvGetSecretValue (mkInput (Some (SecretID cfg)))]).
Proof.
  intros Hp Hl Hg.
  rewrite (main_parsed _ _ _ _ Hp). cbn zeta. rewrite Hl.
  unfold request_of. rewrite Hg. reflexivity.
Qed.

(** X6.  What a run asks of the SDK.  For a second token that is no flag:
    with no region resolved nothing is called; otherwise the configuration
    is loaded once, for the resolved region (the third token when there is
    one, whatever [AWS_REGION] holds), and when that succeeds exactly one
    request follows, for the second token as it stands.  Nothing else is
    ever called. *)
Theorem main_trace (prog secretId : string) (rest : list string) :
  is_version_flag secretId = false ->
  is_help_flag secretId = false ->
  Trace (snd (main (prog :: secretId :: rest) initial)) =
    if String.eqb (resolved_region rest) "" then []
    else
      EvLoadDefaultConfig (resolved_region rest) ::
      match config_LoadDefaultConfig (resolved_region rest) with
      | inr _ => []
      | inl _ => [EvGetSecretValue (mkInput (Some secretId))]
      end.
Proof.
  intros Hv Hh.
  pose proof (ParseArgs_secret prog secretId rest initial Hv Hh) as Hp.
  destruct (String.eqb (resolved_region rest) "") eqn:Hr.
  - now rewrite (main_parse_failed _ _ _ _ _ Hp).
  - rewrite (main_parsed _ _ _ _ Hp). cbn zeta. cbn [Region SecretID].
    destruct (config_LoadDefaultConfig _) as [awsCfg|err]; [|reflexivity].
    destruct (GetSecretValue _ _) as [[r|] [e|]];
      try destruct (SecretString r); reflexivity.
Qed.

(** *** Fetching again and again *)

Lemma called_n (e : Event) (n : nat) (w : World) :
  called e (mkWorld (Stdout w) (Stderr w) (Trace w ++ replicate n e)) =
  mkWorld (Stdout w) (Stderr w) (Trace w ++ replicate (S n) e).
Proof.
  unfold called. cbn [Stdout Stderr Trace]. f_equal.
  rewrite <- app_assoc. f_equal.
  change [e] with (replicate 1 e). rewrite <- replicate_add.
  now rewrite Nat.add_comm.
Qed.

(** X7.  Fetches do not interfere.  With a client that answers the request
    with a [SecretString], [N] fetches in a row (the loop of
    BenchmarkGetSecret) end without error after exactly [N] requests, all for
    the configured secret id, and write nothing.  With a client whose answer
    holds no string the loop stops at the first fetch, however many were
    asked for: one request, and the loop does not end well. *)
Theorem BenchmarkGetSecret_requests (N : nat) (app : App) (w : World) :
  let request := EvGetSecretValue (mkInput (Some (SecretID (AppConfig app)))) in
  (no_payload (GetSecretValue (Client app) (mkInput (Some (SecretID (AppConfig app)))))
     = false ->
   BenchmarkGetSecret_loop N app w =
   (Done None, mkWorld (Stdout w) (Stderr w) (Trace w ++ replicate N request))) /\
  (no_payload (GetSecretValue (Client app) (mkInput (Some (SecretID (AppConfig app)))))
     = true ->
   snd (BenchmarkGetSecret_loop (S N) app w) =
     mkWorld (Stdout w) (Stderr w) (Trace w ++ [request]) /\
   fst (BenchmarkGetSecret_loop (S N) app w) <> Done None).
Proof.
  cbn zeta. split.
  - intros Hn.
    assert (Hg : forall w0, exists s,
               GetSecret app w0 =
               (Done (s, None), called (EvGetSecretValue (request_of (AppConfig app))) w0)).
    { intros w0. rewrite GetSecret_run. cbn zeta. unfold request_of.
      unfold no_payload in Hn.
      destruct (GetSecretValue _ _) as [[r|] [e|]]; try discriminate.
      destruct (SecretString r) as [s|]; [|discriminate]. now exists s. }
    assert (Hi : forall n k,
               BenchmarkGetSecret_loop n app
                 (mkWorld (Stdout w) (Stderr w)
                    (Trace w ++ replicate k (EvGetSecretValue (request_of (AppConfig app)))))
               = (Done None,
                  mkWorld (Stdout w) (Stderr w)
                    (Trace w ++ replicate (k + n) (EvGetSecretValue (request_of (AppConfig app)))))).
    { induction n as [|n IH]; intros k.
      - now rewrite Nat.add_0_r.
      - cbn [BenchmarkGetSecret_loop]. unfold bind at 1.
        destruct (Hg (mkWorld (Stdout w) (Stderr w)
                        (Trace w ++ replicate k (EvGetSecretValue (request_of (AppConfig app))))))
          as [s ->].
        rewrite called_n, IH. now rewrite Nat.add_succ_r. }
    specialize (Hi N 0%nat). cbn [replicate] in Hi. rewrite app_nil_r in Hi.
    destruct w as [out err tr]. exact Hi.
  - intros Hn. cbn [BenchmarkGetSecret_loop]. unfold bind at 1 2.
    rewrite GetSecret_run. cbn zeta. unfold request_of, called.
    unfold no_payload in Hn.
    destruct (GetSecretValue _ _) as [[r|] [e|]];
      try (split; [reflexivity|discriminate]).
    destruct (SecretString r); [discriminate|].
    split; [reflexivity|discriminate].
Qed.

(** *** The program before the flags *)


(** X9.  The predecessor's [ParseArgs] knows no flag: whatever the second
    token, [--version] and [--help] included, it is the secret id of the
    configuration returned when a region is resolved, and the region error
    is returned otherwise; nothing is printed and the process goes on. *)
Theorem Unflagged_ParseArgs_any_token
        (prog secretId : string) (rest : list string) (w : World) :
  Unflagged.ParseArgs (prog :: secretId :: rest) w =
  if String.eqb (resolved_region rest) ""
  then (Done (Config_zero, Some (errorString region_required)), w)
  else (Done (mkConfig secretId (resolved_region rest), None), w).
Proof. apply Unflagged_ParseArgs_secret. Qed.




(** *** More on the program of src/main.go *)

(** X11.  The program of src/main.go knows no flag either: with a region
    resolved and the configuration loaded, it sends exactly one request, for
    the second token whatever it is, so [--version] or [--help] there ask
    the store for a secret of that name. *)
Theorem Monolith_requests_any_token
        (prog secretId : string) (rest : list string) (awsCfg : aws_Config) :
  resolved_region rest <> "" ->
  config_LoadDefaultConfig (resolved_region rest) = inl awsCfg ->
  Trace (snd (Monolith.main (prog :: secretId :: rest) initial)) =
    [EvLoadDefaultConfig (resolved_region rest);
     EvGetSecretValue (mkInput (Some secretId))].
Proof.
  intros Hr Hl. rewrite Monolith_main_run. cbn zeta.
  apply String.eqb_neq in Hr. rewrite Hr, Hl.
  destruct (GetSecretValue _ _) as [[r|] [e|]];
    try destruct (SecretString r); reflexivity.
Qed.

(** X12.  In the program of src/main.go every failure after the arguments
    were counted goes through the logger and exits with 1 with nothing on
    standard output: no region resolved (no call made), the configuration
    not loaded (no request sent), an error from the client, and an output
    without [SecretString]; each with its own message after the logger's
    stamp. *)
Theorem Monolith_failures (prog secretId : string) (rest : list string) :
  (resolved_region rest = "" ->
   Monolith.main (prog :: secretId :: rest) initial =
     (Exit 1, mkWorld "" (log_line region_required) [])) /\
  (forall cause,
     resolved_region rest <> "" ->
     config_LoadDefaultConfig (resolved_region rest) = inr cause ->
     Monolith.main (prog :: secretId :: rest) initial =
       (Exit 1,
        mkWorld "" (log_line ("Failed to load AWS config: " +:+ Error cause))
          [EvLoadDefaultConfig (resolved_region rest)])) /\
  (forall awsCfg resp cause,
     resolved_region rest <> "" ->
     config_LoadDefaultConfig (resolved_region rest) = inl awsCfg ->
     GetSecretValue (secretsmanager_NewFromConfig awsCfg) (mkInput (Some secretId))
       = (resp, Some cause) ->
     Monolith.main (prog :: secretId :: rest) initial =
       (Exit 1,
        mkWorld "" (log_line ("Failed to get secret value: " +:+ Error cause))
          [EvLoadDefaultConfig (resolved_region rest);
           EvGetSecretValue (mkInput (Some secretId))])) /\
  (forall awsCfg binary,
     resolved_region rest <> "" ->
     config_LoadDefaultConfig (resolved_region rest) = inl awsCfg ->
     GetSecretValue (secretsmanager_NewFromConfig awsCfg) (mkInput (Some secretId))
       = (Some (mkOutput None binary), None) ->
     Monolith.main (prog :: secretId :: rest) initial =
       (Exit 1,
        mkWorld "" (log_line "Secret does not contain a string value")
          [EvLoadDefaultConfig (resolved_region rest);
           EvGetSecretValue (mkInput (Some secretId))])).
Proof.
  rewrite Monolith_main_run. cbn zeta. repeat split.
  - intros ->. reflexivity.
  - intros cause Hr Hl. apply String.eqb_neq in Hr. now rewrite Hr, Hl.
  - intros awsCfg resp cause Hr Hl Hg. apply String.eqb_neq in Hr.
    rewrite Hr, Hl, Hg. destruct resp; reflexivity.
  - intros awsCfg binary Hr Hl Hg. apply String.eqb_neq in Hr.
    now rewrite Hr, Hl, Hg.
Qed.

(** *** The version display *)

Lemma ReplaceAll_byte_back (s : string) (a b : ascii) :
  (forall ch, In ch (list_ascii_of_string s) -> ch <> b) ->
  ReplaceAll_byte (ReplaceAll_byte s a b) b a = s.
Proof.
  induction s as [|c s IH]; intros Hb; [reflexivity|].
  cbn [ReplaceAll_byte]. rewrite IH by (intros ch Hin; apply Hb; now right).
  f_equal.
  destruct (Ascii.eqb_spec c a) as [->|Hca].
  - now rewrite Ascii.eqb_refl.
  - destruct (Ascii.eqb_spec c b) as [->|Hcb]; [|reflexivity].
    exfalso. apply (Hb b); [now left|reflexivity].
Qed.

End Properties.

(** X13.  The build scripts write the maintainer's name with underscores for
    its spaces; [ShowVersion] turns every underscore into a space.  So for a
    name that is not empty and holds no underscore of its own, the last line
    of the version display is "Maintainer: " and the name as it was, after
    the lines a build without maintainer prints; nothing goes to standard
    error and nothing is called. *)
Theorem maintainer_shown_with_spaces
        (version commit time name : string) (w : World) :
  name <> "" ->
  (forall ch, In ch (list_ascii_of_string name) -> ch <> "_"%char) ->
  ShowVersion (build:=mkBuild version commit time (ReplaceAll_byte name " " "_")) w =
  (Done tt,
   mkWorld
     (Stdout w +:+ version_text (build:=mkBuild version commit time "")
               +:+ "Maintainer: " +:+ name +:+ nl)
     (Stderr w) (Trace w)).
Proof.
  intros Hne Hu. rewrite ShowVersion_run. unfold version_text.
  cbn [Version GitCommit BuildTime Maintainer].
  rewrite (ReplaceAll_byte_back name " " "_" Hu).
  assert (He : String.eqb (ReplaceAll_byte name " " "_") "" = false).
  { destruct name as [|c name]; [congruence|reflexivity]. }
  rewrite He. cbn [String.eqb].
  do 2 f_equal.
  destruct (String.eqb commit "unknown"), (String.eqb time "unknown");
    repeat rewrite append_assoc; repeat rewrite append_empty_r; reflexivity.
Qed.

(** X14.  The two sentinels of the version display.  The commit and the
    build time are hidden when they are "unknown", the maintainer when it is
    empty: a build with those values shows the version line alone.  The
    tests are not the same for all three: an empty commit or build time is
    shown, as a line with nothing after its label, while an empty maintainer
    is not. *)
Theorem version_display_sentinels (version : string) (w : World) :
  ShowVersion (build:=mkBuild version "unknown" "unknown" "") w =
    (Done tt,
     mkWorld (Stdout w +:+ "aws-ssm version " +:+ version +:+ nl)
             (Stderr w) (Trace w)) /\
  ShowVersion (build:=mkBuild version "" "" "") w =
    (Done tt,
     mkWorld (Stdout w +:+ "aws-ssm version " +:+ version +:+ nl +:+
              "Git commit: " +:+ nl +:+ "Built: " +:+ nl)
             (Stderr w) (Trace w)).
Proof.
  split; rewrite ShowVersion_run; unfold version_text;
    cbn [Version GitCommit BuildTime Maintainer String.eqb Ascii.eqb Bool.eqb];
    repeat rewrite append_assoc; repeat rewrite append_empty_r; reflexivity.
Qed.

(** *** What a run does not depend on *)


(** X16.  The JSON parse attempt is dead weight for the whole run, not only
    for [FormatOutput]: two hosts that differ only in what their decoder
    answers give the same outcome, the same bytes on both streams and the
    same calls, for every argument vector and in all three generations of
    the program. *)
Theorem run_ignores_decoder
        (build : Build) (env : gmap string string) (stamp : string)
        (decoder1 decoder2 : string -> option error)
        (load : string -> aws_Config + error)
        (new : aws_Config -> SecretsManagerClient)
        (args : list string) (w : World) :
  main (host:=mkHost env stamp decoder1 load new) args w
    = main (host:=mkHost env stamp decoder2 load new) args w /\
  Unflagged.main (host:=mkHost env stamp decoder1 load new) args w
    = Unflagged.main (host:=mkHost env stamp decoder2 load new) args w /\
  Monolith.main (host:=mkHost env stamp decoder1 load new) args w
    = Monolith.main (host:=mkHost env stamp decoder2 load new) args w.
Proof.
  set (h1 := mkHost env stamp decoder1 load new).
  set (h2 := mkHost env stamp decoder2 load new).
  assert (Hserve : forall (cfg : Config) (w1 : World)
                          (k1 k2 : option App * option error -> Proc unit),
    (forall e w', k1 (None, Some e) w' = k2 (None, Some e) w') ->
    (forall app w',
       k1 (Some app, None) w' =
         bind (GetSecret app)
           (fun '(secretValue, err) =>
              match err with
              | Some e => log_Fatal (host:=h1) ("Failed to get secret: " +:+ Error e)
              | None => fmt_Print (FormatOutput (host:=h1) secretValue)
              end) w') ->
    (forall app w',
       k2 (Some app, None) w' =
         bind (GetSecret app)
           (fun '(secretValue, err) =>
              match err with
              | Some e => log_Fatal (host:=h2) ("Failed to get secret: " +:+ Error e)
              | None => fmt_Print (FormatOutput (host:=h2) secretValue)
              end) w') ->
    bind (NewApp (host:=h1) cfg) k1 w1 = bind (NewApp (host:=h2) cfg) k2 w1).
  { intros cfg w1 k1 k2 Herr H1 H2.
    destruct (load (Region cfg)) as [awsCfg|err] eqn:Hl.
    - assert (N1 : NewApp (host:=h1) cfg w1 =
                   (Done (Some (mkApp (new awsCfg) cfg), None),
                    called (EvLoadDefaultConfig (Region cfg)) w1))
        by (unfold NewApp, bind, emit; cbn [config_LoadDefaultConfig h1];
            now rewrite Hl).
      assert (N2 : NewApp (host:=h2) cfg w1 =
                   (Done (Some (mkApp (new awsCfg) cfg), None),
                    called (EvLoadDefaultConfig (Region cfg)) w1))
        by exact N1.
      rewrite (bind_Done _ _ _ _ _ N1), (bind_Done _ _ _ _ _ N2), H1, H2.
      destruct (GetSecret (mkApp (new awsCfg) cfg)
                  (called (EvLoadDefaultConfig (Region cfg)) w1))
        as [[[secretValue [e|]]|code|msg] w2] eqn:Hg.
      + now rewrite !(bind_Done _ _ _ _ _ Hg).
      + rewrite !(bind_Done _ _ _ _ _ Hg). unfold FormatOutput.
        cbn [json_Unmarshal h1 h2].
        destruct (decoder1 secretValue), (decoder2 secretValue); reflexivity.
      + now rewrite !(bind_Exit _ _ _ _ _ Hg).
      + now rewrite !(bind_Panic _ _ _ _ _ Hg).
    - assert (N1 : NewApp (host:=h1) cfg w1 =
                   (Done (None, Some (fmt_Errorf_w "failed to load AWS config: " err)),
                    called (EvLoadDefaultConfig (Region cfg)) w1))
        by (unfold NewApp, bind, emit; cbn [config_LoadDefaultConfig h1];
            now rewrite Hl).
      assert (N2 : NewApp (host:=h2) cfg w1 =
                   (Done (None, Some (fmt_Errorf_w "failed to load AWS config: " err)),
                    called (EvLoadDefaultConfig (Region cfg)) w1))
        by exact N1.
      rewrite (bind_Done _ _ _ _ _ N1), (bind_Done _ _ _ _ _ N2). apply Herr. }
  repeat split.
  - destruct (ParseArgs (host:=h1) args w) as [[[cfg [e|]]|code|msg] w1] eqn:Hp;
      pose proof (Hp : ParseArgs (host:=h2) args w = _) as Hp2; unfold main.
    + now rewrite (bind_Done _ _ _ _ _ Hp), (bind_Done _ _ _ _ _ Hp2).
    + rewrite (bind_Done _ _ _ _ _ Hp), (bind_Done _ _ _ _ _ Hp2).
      apply Hserve; reflexivity.
    + now rewrite (bind_Exit _ _ _ _ _ Hp), (bind_Exit _ _ _ _ _ Hp2).
    + now rewrite (bind_Panic _ _ _ _ _ Hp), (bind_Panic _ _ _ _ _ Hp2).
  - destruct (Unflagged.ParseArgs (host:=h1) args w)
      as [[[cfg [e|]]|code|msg] w1] eqn:Hp;
      pose proof (Hp : Unflagged.ParseArgs (host:=h2) args w = _) as Hp2;
      unfold Unflagged.main.
    + now rewrite (bind_Done _ _ _ _ _ Hp), (bind_Done _ _ _ _ _ Hp2).
    + rewrite (bind_Done _ _ _ _ _ Hp), (bind_Done _ _ _ _ _ Hp2).
      apply Hserve; reflexivity.
    + now rewrite (bind_Exit _ _ _ _ _ Hp), (bind_Exit _ _ _ _ _ Hp2).
    + now rewrite (bind_Panic _ _ _ _ _ Hp), (bind_Panic _ _ _ _ _ Hp2).
  - rewrite (Monolith_main_from (host:=h1)), (Monolith_main_from (host:=h2)).
    reflexivity.
Qed.

(** X17.  The build metadata shows in the version display and nowhere else:
    when the second token is no flag, two builds of the program run alike on
    the same host, whatever their version, commit, build time and
    maintainer. *)
Theorem run_ignores_build
        (build1 build2 : Build) (host : Host) (args : list string) (w : World) :
  informational args = false ->
  ParseArgs (build:=build1) args w = ParseArgs (build:=build2) args w /\
  main (build:=build1) args w = main (build:=build2) args w.
Proof.
  intros Hinf.
  destruct args as [|prog [|secretId rest]];
    [split; reflexivity|split; reflexivity|].
  apply not_informational in Hinf as [Hv Hh].
  assert (Hp : ParseArgs (build:=build1) (prog :: secretId :: rest) w
               = ParseArgs (build:=build2) (prog :: secretId :: rest) w)
    by now rewrite !ParseArgs_secret.
  split; [exact Hp|].
  unfold main. unfold bind at 1 4. rewrite Hp. reflexivity.
Qed.

(** * Concrete runs *)

(** ** The tables of main_test.go *)

Example TestParseArgs_missing_secret_ID :
  ParseArgs (build:=dev) (host:=host_with ∅ (answering "x")) ["aws-ssm"] initial
  = (Done (Config_zero, Some (errorString "insufficient arguments")), initial).
Proof. reflexivity. Qed.

Example TestParseArgs_region_from_env :
  ParseArgs (build:=dev) (host:=host_with env_us (answering "x"))
    ["aws-ssm"; "my-secret"] initial
  = (Done (mkConfig "my-secret" "us-east-1", None), initial).
Proof. vm_compute. reflexivity. Qed.

Example TestParseArgs_region_from_args :
  ParseArgs (build:=dev) (host:=host_with ∅ (answering "x"))
    ["aws-ssm"; "my-secret"; "eu-west-1"] initial
  = (Done (mkConfig "my-secret" "eu-west-1", None), initial).
Proof. vm_compute. reflexivity. Qed.

Example TestParseArgs_region_from_args_overrides_env :
  ParseArgs (build:=dev) (host:=host_with env_us (answering "x"))
    ["aws-ssm"; "my-secret"; "eu-west-1"] initial
  = (Done (mkConfig "my-secret" "eu-west-1", None), initial).
Proof. vm_compute. reflexivity. Qed.

Example TestParseArgs_no_region_specified :
  ParseArgs (build:=dev) (host:=host_with ∅ (answering "x"))
    ["aws-ssm"; "my-secret"] initial
  = (Done (Config_zero, Some (errorString region_required)), initial).
Proof. vm_compute. reflexivity. Qed.

Example TestParseArgs_ARN_as_secret_ID :
  ParseArgs (build:=dev) (host:=host_with ∅ (answering "x"))
    ["aws-ssm";
     "arn:aws:secretsmanager:us-east-1:123456789012:secret:my-secret-AbCdEf";
     "us-east-1"] initial
  = (Done (mkConfig
             "arn:aws:secretsmanager:us-east-1:123456789012:secret:my-secret-AbCdEf"
             "us-east-1", None), initial).
Proof. vm_compute. reflexivity. Qed.

(** The inputs of TestFormatOutput, with what the scanner says of each. *)
Example TestFormatOutput_table :
  let h := host_with ∅ (answering "x") in
  let inputs :=
    ["plain-text-password";
     dq "{'username': 'admin', 'password': 'secret123'}";
     "";
     dq "{'username': 'admin', 'password':";
     "12345";
     dq "['value1', 'value2', 'value3']"] in
  map (FormatOutput (host:=h)) inputs = inputs /\
  map json.checkValid inputs = [false; true; false; false; true; true].
Proof. vm_compute. split; reflexivity. Qed.

Example TestApp_GetSecret_successful :
  GetSecret (mkApp (answering "my-secret-value") (mkConfig "my-secret" "us-east-1"))
    initial
  = (Done ("my-secret-value", None),
     mkWorld "" "" [EvGetSecretValue (mkInput (Some "my-secret"))]).
Proof. reflexivity. Qed.

Example TestApp_GetSecret_AWS_error :
  fst (GetSecret (mkApp (double None (Some (errorString "context deadline exceeded")))
                   (mkConfig "non-existent-secret" "us-east-1")) initial)
  = Done ("", Some (wrapError "failed to get secret value: context deadline exceeded"
                              (errorString "context deadline exceeded"))).
Proof. reflexivity. Qed.

Example TestApp_GetSecret_nil_secret_string :
  fst (GetSecret (mkApp (double (Some (mkOutput None (Some ["b"%char]))) None)
                   (mkConfig "binary-secret" "us-east-1")) initial)
  = Done ("", Some (errorString "secret does not contain a string value")).
Proof. reflexivity. Qed.

(** ** The examples of the specification *)

Example run_plain_secret :
  main (build:=dev) (host:=host_with env_us (answering "my-secret-value"))
    ["prog"; "my-secret"] initial
  = (Done tt,
     mkWorld "my-secret-value" ""
       [EvLoadDefaultConfig "us-east-1";
        EvGetSecretValue (mkInput (Some "my-secret"))]).
Proof. vm_compute. reflexivity. Qed.

Example run_json_secret :
  main (build:=dev)
    (host:=host_with env_us (answering (dq "{'username':'admin','password':'secret123'}")))
    ["prog"; "json-secret"; "eu-west-1"] initial
  = (Done tt,
     mkWorld (dq "{'username':'admin','password':'secret123'}") ""
       [EvLoadDefaultConfig "eu-west-1";
        EvGetSecretValue (mkInput (Some "json-secret"))]).
Proof. vm_compute. reflexivity. Qed.

Example run_no_arguments :
  main (build:=dev) (host:=host_with env_us (answering "my-secret-value"))
    ["prog"] initial
  = (Exit 1, mkWorld "" (usage_text "prog") []).
Proof. vm_compute. reflexivity. Qed.

Example run_transport_error :
  main (build:=dev)
    (host:=host_with env_us (double None (Some (errorString "context deadline exceeded"))))
    ["prog"; "my-secret"] initial
  = (Exit 1,
     mkWorld ""
       ("2025/01/01 00:00:00 Failed to get secret: failed to get secret value: context deadline exceeded" +:+ nl)
       [EvLoadDefaultConfig "us-east-1";
        EvGetSecretValue (mkInput (Some "my-secret"))]).
Proof. vm_compute. reflexivity. Qed.

(** A build with every linker flag set, as build.ps1 sets them. *)
Example version_text_of_release :
  version_text (build:=mkBuild "v1.2.0" "0123abc" "2025-01-01T00:00:00Z" "Nicolas_HYPOLITE")
  = "aws-ssm version v1.2.0" +:+ nl +:+
    "Git commit: 0123abc" +:+ nl +:+
    "Built: 2025-01-01T00:00:00Z" +:+ nl +:+
    "Maintainer: Nicolas HYPOLITE" +:+ nl.
Proof. vm_compute. reflexivity. Qed.

(** ** The claims at concrete inputs *)

(** C2, as stated, at the token [--version]: with the region in the
    environment the vector has the form [prog; secretId], yet [ParseArgs]
    returns no configuration: it prints the version and ends the process. *)
Lemma flag_is_not_parsed_as_secret_id :
  environ (Host:=host_us) !! "AWS_REGION" = Some "us-east-1" /\
  ParseArgs (build:=dev) (host:=host_us) ["aws-ssm"; "--version"] initial
    = (Exit 0,
       mkWorld ("aws-ssm version dev" +:+ nl +:+
                "Maintainer: Nicolas HYPOLITE" +:+ nl) "" []) /\
  ParseArgs (build:=dev) (host:=host_us) ["aws-ssm"; "--version"] initial
    <> (Done (mkConfig "--version" "us-east-1", None), initial).
Proof. vm_compute. repeat split. discriminate. Qed.

(** An empty region argument is still the argument: it hides the region of
    the environment, and parsing fails. *)
Example empty_region_argument_hides_environment :
  ParseArgs (build:=dev) (host:=host_us) ["aws-ssm"; "my-secret"; ""] initial
  = (Done (Config_zero, Some (errorString region_required)), initial).
Proof. vm_compute. reflexivity. Qed.

Lemma ParseArgs_resolves_region_witness :
  ParseArgs (build:=dev) (host:=host_us) ["aws-ssm"; "my-secret"] initial
    = (Done (mkConfig "my-secret" "us-east-1", None), initial) /\
  ParseArgs (build:=dev) (host:=host_us) ["aws-ssm"; "my-secret"; "eu-west-1"] initial
    = (Done (mkConfig "my-secret" "eu-west-1", None), initial).
Proof.
  split.
  - apply (ParseArgs_resolves_region (build:=dev) (host:=host_us)
             "aws-ssm" "my-secret" "us-east-1" [] initial);
      [reflexivity | reflexivity | discriminate | left; split; vm_compute; reflexivity].
  - apply (ParseArgs_resolves_region (build:=dev) (host:=host_us)
             "aws-ssm" "my-secret" "eu-west-1" ["eu-west-1"] initial);
      [reflexivity | reflexivity | discriminate | right; reflexivity].
Defined.

Lemma too_few_arguments_witness :
  (length ["aws-ssm"] < 2)%nat /\
  main (build:=dev) (host:=host_us) ["aws-ssm"] initial
    = (Exit 1, mkWorld "" (usage_text "aws-ssm") []).
Proof.
  split; [cbn; lia|].
  apply (too_few_arguments (build:=dev) (host:=host_us) ["aws-ssm"]);
    [cbn; lia | reflexivity].
Defined.

(** C4, as stated, at the token [--help]: no region anywhere, yet no
    configuration error: the usage goes to standard error and the process
    ends with status 0. *)
Lemma help_without_region_is_not_an_error :
  environ (Host:=host_bare) !! "AWS_REGION" = None /\
  ParseArgs (build:=dev) (host:=host_bare) ["aws-ssm"; "--help"] initial
    = (Exit 0, mkWorld "" (usage_text "aws-ssm") []) /\
  ParseArgs (build:=dev) (host:=host_bare) ["aws-ssm"; "--help"] initial
    <> (Done (Config_zero, Some (errorString region_required)), initial) /\
  exit_status (fst (main (build:=dev) (host:=host_bare) ["aws-ssm"; "--help"] initial)) = 0.
Proof. vm_compute. repeat split. discriminate. Qed.

Lemma region_unresolved_witness :
  main (build:=dev) (host:=host_bare) ["aws-ssm"; "my-secret"] initial =
    (Exit 1,
     mkWorld ""
       ("Error: AWS region must be specified either via AWS_REGION environment variable or as second argument" +:+ nl)
       []).
Proof.
  apply (region_unresolved (build:=dev) (host:=host_bare) "aws-ssm" "my-secret");
    [reflexivity | reflexivity | left; vm_compute; reflexivity].
Defined.

(** C6, as stated, at a response whose [SecretString] is the empty string:
    [GetSecret] returns the empty string and no error. *)
Lemma empty_SecretString_is_returned :
  GetSecretValue (answering "") (mkInput (Some "empty-secret"))
    = (Some (mkOutput (Some "") None), None) /\
  GetSecret (mkApp (answering "") (mkConfig "empty-secret" "us-east-1")) initial
    = (Done ("", None),
       mkWorld "" "" [EvGetSecretValue (mkInput (Some "empty-secret"))]) /\
  main (build:=dev) (host:=host_with env_us (answering ""))
       ["aws-ssm"; "empty-secret"] initial
    = (Done tt,
       mkWorld "" ""
         [EvLoadDefaultConfig "us-east-1";
          EvGetSecretValue (mkInput (Some "empty-secret"))]).
Proof. vm_compute. repeat split. Qed.

(** C7, as stated, at an empty second token: parsing succeeds and the
    configuration it returns has an empty secret id, for which a request is
    then sent. *)
Lemma empty_secret_id_is_accepted :
  ParseArgs (build:=dev) (host:=host_us) ["aws-ssm"; ""] initial
    = (Done (mkConfig "" "us-east-1", None), initial) /\
  SecretID (mkConfig "" "us-east-1") = "" /\
  Trace (snd (main (build:=dev) (host:=host_us) ["aws-ssm"; ""] initial))
    = [EvLoadDefaultConfig "us-east-1"; EvGetSecretValue (mkInput (Some ""))].
Proof. vm_compute. repeat split. Qed.

Lemma parsed_Config_has_region_witness :
  Region (mkConfig "my-secret" "us-east-1") <> "" /\
  ["aws-ssm"; "my-secret"] !! 1%nat = Some (SecretID (mkConfig "my-secret" "us-east-1")) /\
  initial = initial.
Proof.
  apply (proj1 (parsed_Config_has_region (build:=dev) (host:=host_us)
                  ["aws-ssm"; "my-secret"]) initial initial).
  vm_compute. reflexivity.
Defined.

Lemma main_prints_secret_witness :
  main (build:=dev) (host:=host_us) ["aws-ssm"; "my-secret"] initial =
    (Done tt,
     mkWorld "my-secret-value" ""
       [EvLoadDefaultConfig "us-east-1";
        EvGetSecretValue (mkInput (Some "my-secret"))]).
Proof.
  apply (main_prints_secret (build:=dev) (host:=host_us)
           ["aws-ssm"; "my-secret"] (mkConfig "my-secret" "us-east-1")
           (mkAwsConfig "us-east-1") (mkOutput (Some "my-secret-value") None)
           "my-secret-value");
    vm_compute; reflexivity.
Defined.

(** C9, as stated, at [--version] and at [--help]: the first run ends with
    status 0 and text on standard output that is no secret (no request was
    sent); the second ends with status 0 and nothing on standard output. *)
Lemma flag_runs_are_neither_all_nor_nothing :
  (main (build:=dev) (host:=host_us) ["aws-ssm"; "--version"] initial
     = (Exit 0,
        mkWorld ("aws-ssm version dev" +:+ nl +:+
                 "Maintainer: Nicolas HYPOLITE" +:+ nl) "" []) /\
   Stdout (snd (main (build:=dev) (host:=host_us) ["aws-ssm"; "--version"] initial))
     <> "my-secret-value") /\
  main (build:=dev) (host:=host_us) ["aws-ssm"; "--help"] initial
    = (Exit 0, mkWorld "" (usage_text "aws-ssm") []).
Proof. vm_compute. repeat split. discriminate. Qed.

Lemma all_or_nothing_witness :
  exit_status (fst (main (build:=dev)
                      (host:=host_with env_us (double (Some (mkOutput None None)) None))
                      ["aws-ssm"; "binary-secret"] initial)) <> 0 /\
  Stdout (snd (main (build:=dev)
                 (host:=host_with env_us (double (Some (mkOutput None None)) None))
                 ["aws-ssm"; "binary-secret"] initial)) = "".
Proof.
  apply (proj2 (all_or_nothing (build:=dev)
                  (host:=host_with env_us (double (Some (mkOutput None None)) None))
                  ["aws-ssm"; "binary-secret"] eq_refl)
               (mkConfig "binary-secret" "us-east-1") (mkAwsConfig "us-east-1"));
    vm_compute; reflexivity.
Defined.

Lemma ParseArgs_ignores_extra_tokens_witness :
  (3 < length ["aws-ssm"; "my-secret"; "eu-west-1"; "us-east-1"; "--help"])%nat /\
  ParseArgs (build:=dev) (host:=host_us)
    ["aws-ssm"; "my-secret"; "eu-west-1"; "us-east-1"; "--help"] initial
  = ParseArgs (build:=dev) (host:=host_us)
      (take 3 ["aws-ssm"; "my-secret"; "eu-west-1"; "us-east-1"; "--help"]) initial.
Proof.
  split; [cbn; lia|].
  apply (proj1 (ParseArgs_ignores_extra_tokens (build:=dev) (host:=host_us)
                  ["aws-ssm"; "my-secret"; "eu-west-1"; "us-east-1"; "--help"]
                  initial ltac:(cbn; lia))).
Defined.

(** ** The further properties at concrete inputs *)

Lemma main_config_failure_witness :
  main (build:=dev) (host:=host_no_credentials) ["aws-ssm"; "my-secret"] initial =
    (Exit 1,
     mkWorld ""
       ("2025/01/01 00:00:00 Failed to initialize application: failed to load AWS config: no credentials"
        +:+ nl)
       [EvLoadDefaultConfig "us-east-1"]).
Proof.
  apply (main_config_failure (build:=dev) (host:=host_no_credentials)
           ["aws-ssm"; "my-secret"] (mkConfig "my-secret" "us-east-1")
           (errorString "no credentials"));
    vm_compute; reflexivity.
Defined.

Lemma main_fetch_failure_witness :
  main (build:=dev) (host:=host_timeout) ["aws-ssm"; "my-secret"] initial =
    (Exit 1,
     mkWorld ""
       ("2025/01/01 00:00:00 Failed to get secret: failed to get secret value: context deadline exceeded"
        +:+ nl)
       [EvLoadDefaultConfig "us-east-1";
        EvGetSecretValue (mkInput (Some "my-secret"))]).
Proof.
  apply (main_fetch_failure (build:=dev) (host:=host_timeout)
           ["aws-ssm"; "my-secret"] (mkConfig "my-secret" "us-east-1")
           (mkAwsConfig "us-east-1") None (errorString "context deadline exceeded"));
    vm_compute; reflexivity.
Defined.

Lemma main_secret_without_string_witness :
  main (build:=dev) (host:=host_binary) ["aws-ssm"; "binary-secret"] initial =
    (Exit 1,
     mkWorld ""
       ("2025/01/01 00:00:00 Failed to get secret: secret does not contain a string value"
        +:+ nl)
       [EvLoadDefaultConfig "us-east-1";
        EvGetSecretValue (mkInput (Some "binary-secret"))]).
Proof.
  apply (main_secret_without_string (build:=dev) (host:=host_binary)
           ["aws-ssm"; "binary-secret"] (mkConfig "binary-secret" "us-east-1")
           (mkAwsConfig "us-east-1") (Some ["b"%char]));
    vm_compute; reflexivity.
Defined.

Lemma main_trace_witness :
  Trace (snd (main (build:=dev) (host:=host_us)
                ["aws-ssm"; "my-secret"; "eu-west-1"] initial)) =
    [EvLoadDefaultConfig "eu-west-1"; EvGetSecretValue (mkInput (Some "my-secret"))].
Proof.
  apply (main_trace (build:=dev) (host:=host_us) "aws-ssm" "my-secret" ["eu-west-1"]);
    reflexivity.
Defined.

Lemma BenchmarkGetSecret_requests_witness :
  BenchmarkGetSecret_loop 3
    (mkApp (answering "benchmark-secret-value") (mkConfig "benchmark-secret" "us-east-1"))
    initial =
  (Done None,
   mkWorld "" ""
     (replicate 3 (EvGetSecretValue (mkInput (Some "benchmark-secret"))))).
Proof.
  apply (proj1 (BenchmarkGetSecret_requests 3
                  (mkApp (answering "benchmark-secret-value")
                         (mkConfig "benchmark-secret" "us-east-1"))
                  initial)).
  reflexivity.
Defined.


Lemma Monolith_requests_any_token_witness :
  Trace (snd (Monolith.main (host:=host_us) ["aws-ssm"; "--version"] initial)) =
    [EvLoadDefaultConfig "us-east-1"; EvGetSecretValue (mkInput (Some "--version"))].
Proof.
  apply (Monolith_requests_any_token (host:=host_us) "aws-ssm" "--version" []
           (mkAwsConfig "us-east-1"));
    [vm_compute; discriminate | vm_compute; reflexivity].
Defined.

Lemma Monolith_failures_witness :
  Monolith.main (host:=host_bare) ["aws-ssm"; "my-secret"] initial =
    (Exit 1,
     mkWorld ""
       ("2025/01/01 00:00:00 AWS region must be specified either via AWS_REGION environment variable or as second argument"
        +:+ nl)
       []).
Proof.
  apply (proj1 (Monolith_failures (host:=host_bare) "aws-ssm" "my-secret" [])).
  vm_compute. reflexivity.
Defined.

Lemma maintainer_shown_with_spaces_witness :
  ShowVersion (build:=mkBuild "v1.2.0" "unknown" "unknown" "Nicolas_HYPOLITE") initial =
  (Done tt,
   mkWorld ("aws-ssm version v1.2.0" +:+ nl +:+ "Maintainer: Nicolas HYPOLITE" +:+ nl)
           "" []).
Proof.
  apply (maintainer_shown_with_spaces "v1.2.0" "unknown" "unknown"
           "Nicolas HYPOLITE" initial).
  - discriminate.
  - intros ch Hin. cbn in Hin.
    repeat (destruct Hin as [<-|Hin]; [discriminate|]). destruct Hin.
Defined.


Lemma run_ignores_build_witness :
  main (build:=dev) (host:=host_us) ["aws-ssm"; "my-secret"] initial
  = main (build:=mkBuild "v1.2.0" "0123abc" "2025-01-01T00:00:00Z" "Nicolas_HYPOLITE")
         (host:=host_us) ["aws-ssm"; "my-secret"] initial.
Proof.
  apply (run_ignores_build dev
           (mkBuild "v1.2.0" "0123abc" "2025-01-01T00:00:00Z" "Nicolas_HYPOLITE")
           host_us ["aws-ssm"; "my-secret"] initial).
  reflexivity.
Defined.

Lemma structured_agrees_with_Monolith_witness :
  exit_status (fst (main (build:=dev) (host:=host_timeout) ["aws-ssm"; "my-secret"] initial))
    = exit_status (fst (Monolith.main (host:=host_timeout) ["aws-ssm"; "my-secret"] initial)) /\
  Stdout (snd (main (build:=dev) (host:=host_timeout) ["aws-ssm"; "my-secret"] initial))
    = Stdout (snd (Monolith.main (host:=host_timeout) ["aws-ssm"; "my-secret"] initial)) /\
  Trace (snd (main (build:=dev) (host:=host_timeout) ["aws-ssm"; "my-secret"] initial))
    = Trace (snd (Monolith.main (host:=host_timeout) ["aws-ssm"; "my-secret"] initial)).
Proof.
  apply (structured_agrees_with_Monolith (build:=dev) (host:=host_timeout)
           ["aws-ssm"; "my-secret"]).
  reflexivity.
Defined.
